(** * Product-Description-Paraphrase: validation, prompts, error mapping

    A shallow embedding of the TypeScript modules (named by their [@module]
    tags)
      - utils/validation      : validateDescription, validateTargetLength,
                                sanitizeInput, isEmptyOrWhitespace
      - utils/openai-client   : handleOpenAIError
      - services/paraphrase   : generateSystemPrompt, generateUserPrompt,
                                ParaphraseService.paraphrase,
                                ParaphraseService.isSignificantlyDifferent
      - cli, index            : promptForDescription, promptForTargetLength
                                and one turn of the interactive loop
    in the version of the sources that has the [TargetLength] hint.

    JavaScript strings are sequences of UTF-16 code units; [length], [trim],
    [split], [replace] and [includes] all work on code units, so a string is
    modelled as a list of code units.  Exceptions are modelled by an explicit
    completion type ([Return] / [Throw]).  The two libraries the code leans
    on are modelled as far as the code uses them: zod's string and
    native-enum schemas, and the error class and completion shape of the
    OpenAI client. *)

From Stdlib Require Import String Ascii NArith ZArith QArith Bool List Lia.
From Stdlib Require DecimalString.
Import ListNotations.
Close Scope Q_scope.

(* ================================================================== *)
(** ** JavaScript strings *)
(* ================================================================== *)

Module Js.

(** A UTF-16 code unit. *)
Definition code_unit := N.

Definition jsstring := list code_unit.

(** An ASCII literal of the source, as code units. *)
Definition lit (s : string) : jsstring :=
  List.map N_of_ascii (list_ascii_of_string s).

Definition eqb (a b : jsstring) : bool :=
  if list_eq_dec N.eq_dec a b then true else false.

(** ECMAScript WhiteSpace and LineTerminator code points: what
    [String.prototype.trim] strips and what [\s] matches.
    TAB LF VT FF CR SP NBSP, U+1680, U+2000..U+200A, LS PS, U+202F,
    U+205F, U+3000, U+FEFF. *)
Definition isWhiteSpace (c : code_unit) : bool :=
  ((9 <=? c) && (c <=? 13)
   || (c =? 32) || (c =? 160) || (c =? 5760)
   || (8192 <=? c) && (c <=? 8202)
   || (c =? 8232) || (c =? 8233) || (c =? 8239) || (c =? 8287)
   || (c =? 12288) || (c =? 65279))%N.

Fixpoint trimStart (s : jsstring) : jsstring :=
  match s with
  | [] => []
  | c :: s' => if isWhiteSpace c then trimStart s' else s
  end.

Definition trimEnd (s : jsstring) : jsstring := rev (trimStart (rev s)).

(** [String.prototype.trim]. *)
Definition trim (s : jsstring) : jsstring := trimEnd (trimStart s).

(** The first, respectively last, code unit of [s] is white space. *)
Definition startsWithWhiteSpace (s : jsstring) : bool :=
  match s with
  | [] => false
  | c :: _ => isWhiteSpace c
  end.

Definition endsWithWhiteSpace (s : jsstring) : bool :=
  startsWithWhiteSpace (rev s).

(** [s.startsWith(p)]. *)
Fixpoint startsWith (s p : jsstring) : bool :=
  match p, s with
  | [], _ => true
  | _ :: _, [] => false
  | a :: p', b :: s' => (a =? b)%N && startsWith s' p'
  end.

(** [s.includes(p)]: [p] occurs in [s] as a contiguous run. *)
Fixpoint includes (s p : jsstring) : bool :=
  startsWith s p ||
  match s with
  | [] => false
  | _ :: s' => includes s' p
  end.

(** [s.replace(/[<>]/g, '')]: every '<' (60) and '>' (62) is dropped. *)
Definition isAngle (c : code_unit) : bool := ((c =? 60) || (c =? 62))%N.

Definition removeAngles (s : jsstring) : jsstring :=
  filter (fun c => negb (isAngle c)) s.

(** [s.replace(/\\n/g, '\n')]: scanning left to right, each backslash (92)
    immediately followed by 'n' (110) becomes one LINE FEED (10). *)
Fixpoint unescapeNewlines (s : jsstring) : jsstring :=
  match s with
  | [] => []
  | c :: s' =>
      match s' with
      | d :: s'' =>
          if ((c =? 92) && (d =? 110))%N
          then 10%N :: unescapeNewlines s''
          else c :: unescapeNewlines s'
      | [] => [c]
      end
  end.

(** [s.split(/\s+/)]: the pieces between maximal runs of white space.
    A leading or trailing run yields an empty first or last piece, and the
    empty string splits into one empty piece.  [inRun] records that the
    previous code unit belonged to a separator, [cur] is the piece being
    read. *)
Fixpoint splitAux (inRun : bool) (cur : jsstring) (s : jsstring)
  : list jsstring :=
  match s with
  | [] => [cur]
  | c :: s' =>
      if isWhiteSpace c
      then (if inRun then splitAux true [] s'
            else cur :: splitAux true [] s')
      else splitAux false (cur ++ [c]) s'
  end.

Definition splitWhiteSpace (s : jsstring) : list jsstring :=
  splitAux false [] s.

(** [arr.includes(w)] on an array of strings. *)
Definition arrayIncludes (arr : list jsstring) (w : jsstring) : bool :=
  existsb (eqb w) arr.

(** [lines.join('\n')]. *)
Fixpoint join (sep : jsstring) (parts : list jsstring) : jsstring :=
  match parts with
  | [] => []
  | [p] => p
  | p :: rest => p ++ sep ++ join sep rest
  end.

(** ASCII lower-casing: what [toLowerCase] does on strings of ASCII code
    units ('A'..'Z' to 'a'..'z', the rest unchanged). *)
Definition asciiLowerUnit (c : code_unit) : code_unit :=
  if ((65 <=? c) && (c <=? 90))%N then (c + 32)%N else c.

Definition asciiLower (s : jsstring) : jsstring := List.map asciiLowerUnit s.

Definition isAscii (s : jsstring) : bool := forallb (fun c => (c <? 128)%N) s.

End Js.

Import Js.

(* ================================================================== *)
(** ** Values that can be thrown, and completions *)
(* ================================================================== *)

(** [enum ErrorType] of src/types/index.ts. *)
Inductive ErrorType :=
| API_KEY_ERROR
| NETWORK_ERROR
| API_ERROR
| VALIDATION_ERROR
| RATE_LIMIT_ERROR
| UNKNOWN_ERROR.

(** The issue codes zod raises for the two schemas of validation.ts. *)
Inductive ZodIssueCode := too_small | too_big | invalid_enum_value.

Record ZodIssue := mkIssue {
  issue_code : ZodIssueCode;
  issue_message : jsstring
}.

(** The JavaScript values the modelled code throws, catches and stores in
    [AppError.details] (declared [unknown]).
      - [VError m]            : [new Error(m)], or any [Error] instance that
                                is neither of the classes below;
      - [VZodError is m]      : zod's [ZodError] with its issues;
      - [VAPIError st m]      : [OpenAI.APIError] (or a subclass) with its
                                [status] ([None] for [undefined]);
      - [VAppError t m d]     : the repository's [AppError(type, message,
                                details)], [VUndefined] for absent details.
    All four are [instanceof Error]. *)
Inductive JsValue :=
| VUndefined
| VString (s : jsstring)
| VError (message : jsstring)
| VZodError (issues : list ZodIssue) (message : jsstring)
| VAPIError (status : option Z) (message : jsstring)
| VAppError (type : ErrorType) (message : jsstring) (details : JsValue).

Definition instanceofError (v : JsValue) : bool :=
  match v with
  | VError _ | VZodError _ _ | VAPIError _ _ | VAppError _ _ _ => true
  | VUndefined | VString _ => false
  end.

Definition instanceofAPIError (v : JsValue) : bool :=
  match v with VAPIError _ _ => true | _ => false end.

(** [error.message] of an [Error] instance. *)
Definition errorMessage (v : JsValue) : jsstring :=
  match v with
  | VError m | VZodError _ m | VAPIError _ m | VAppError _ m _ => m
  | VUndefined | VString _ => []
  end.

(** How a call ends: it returns a value or throws one. *)
Inductive Completion (A : Type) :=
| Return (a : A)
| Throw (v : JsValue).

Arguments Return {A} a.
Arguments Throw {A} v.

Definition returned {A} (c : Completion A) : bool :=
  match c with Return _ => true | Throw _ => false end.

(** The [type] of a thrown [AppError], if that is what was thrown. *)
Definition thrownType {A} (c : Completion A) : option ErrorType :=
  match c with
  | Throw (VAppError t _ _) => Some t
  | _ => None
  end.

(** The [details] (wrapped cause) of a thrown [AppError]. *)
Definition thrownDetails {A} (c : Completion A) : option JsValue :=
  match c with
  | Throw (VAppError _ _ d) => Some d
  | _ => None
  end.

(** Decimal rendering of a number inside a template literal. *)
Definition numberToString (n : nat) : jsstring :=
  lit (DecimalString.NilZero.string_of_uint (Nat.to_uint n)).

(* ================================================================== *)
(** ** The zod schemas of validation.ts *)
(* ================================================================== *)

(** [enum TargetLength] of src/types/index.ts; at run time each member is
    its string value. *)
Inductive TargetLength := SHORT | MEDIUM | LONG.

Definition TargetLength_value (t : TargetLength) : jsstring :=
  match t with
  | SHORT => lit "short"
  | MEDIUM => lit "medium"
  | LONG => lit "long"
  end.

(** [Object.values(TargetLength)], in declaration order. *)
Definition TargetLength_values : list TargetLength := [SHORT; MEDIUM; LONG].

Module Zod.

(** The checks a [z.string()] schema accumulates as [.min], [.max] and
    [.trim] are chained.  [ZodString._parse] walks this array in chain
    order: a [min]/[max] check compares [input.data.length] as the data
    is when the check is reached and records an issue on failure; a
    [trim] check replaces [input.data] by [input.data.trim()]. *)
Inductive StringCheck :=
| CheckMin (value : nat) (message : jsstring)
| CheckMax (value : nat) (message : jsstring)
| CheckTrim.

Fixpoint runChecks (checks : list StringCheck) (data : jsstring)
         (issues : list ZodIssue) : jsstring * list ZodIssue :=
  match checks with
  | [] => (data, issues)
  | CheckMin v m :: rest =>
      runChecks rest data
        (if length data <? v then issues ++ [mkIssue too_small m] else issues)
  | CheckMax v m :: rest =>
      runChecks rest data
        (if v <? length data then issues ++ [mkIssue too_big m] else issues)
  | CheckTrim :: rest => runChecks rest (trim data) issues
  end.

Section Parse.

(** [ZodError.message] is a JSON rendering of the issues made by the
    library; the code under study never inspects it. *)
Variable zodMessage : list ZodIssue -> jsstring.

(** [schema.parse(data)] for a string schema and a string input: the
    data left by the checks when no issue was recorded, otherwise a
    thrown [ZodError] holding the issues. *)
Definition parseString (checks : list StringCheck) (data : jsstring)
  : Completion jsstring :=
  match runChecks checks data [] with
  | (out, []) => Return out
  | (_, issues) => Throw (VZodError issues (zodMessage issues))
  end.

(** zod's default message for a value outside a native enum:
    [Invalid enum value. Expected 'short' | 'medium' | 'long',
    received 'x']. *)
Definition quoted (s : jsstring) : jsstring := [39%N] ++ s ++ [39%N].

Definition enumMessage (received : jsstring) : jsstring :=
  lit "Invalid enum value. Expected "
  ++ join (lit " | ") (List.map (fun t => quoted (TargetLength_value t))
                                TargetLength_values)
  ++ lit ", received " ++ quoted received.

(** [z.nativeEnum(TargetLength).optional().parse(input)]: [undefined]
    passes as [undefined]; a string passes when it is the value of a
    member. *)
Definition parseTargetLength (input : option jsstring)
  : Completion (option TargetLength) :=
  match input with
  | None => Return None
  | Some s =>
      match find (fun t => eqb (TargetLength_value t) s)
                 TargetLength_values with
      | Some t => Return (Some t)
      | None =>
          let issues := [mkIssue invalid_enum_value (enumMessage s)] in
          Throw (VZodError issues (zodMessage issues))
      end
  end.

End Parse.

End Zod.

(* ================================================================== *)
(** ** src/utils/validation.ts *)
(* ================================================================== *)

Definition MAX_DESCRIPTION_LENGTH : nat := 5000.

Definition MIN_DESCRIPTION_LENGTH : nat := 10.

(** [z.string().min(MIN, ...).max(MAX, ...).trim()]: the checks in the order
    of the chain. *)
Definition descriptionSchema : list Zod.StringCheck :=
  [ Zod.CheckMin MIN_DESCRIPTION_LENGTH
      (lit "Description must be at least "
       ++ numberToString MIN_DESCRIPTION_LENGTH ++ lit " characters");
    Zod.CheckMax MAX_DESCRIPTION_LENGTH
      (lit "Description must be at most "
       ++ numberToString MAX_DESCRIPTION_LENGTH ++ lit " characters");
    Zod.CheckTrim ].

Section Validation.

Variable zodMessage : list ZodIssue -> jsstring.

(** [error.errors[0]?.message || 'Unknown validation error']. *)
Definition firstIssueMessage (issues : list ZodIssue) : jsstring :=
  match issues with
  | i :: _ =>
      match issue_message i with
      | [] => lit "Unknown validation error"
      | m => m
      end
  | [] => lit "Unknown validation error"
  end.

Definition validateDescription (description : jsstring)
  : Completion jsstring :=
  match Zod.parseString zodMessage descriptionSchema description with
  | Return d => Return d
  | Throw error =>
      match error with
      | VZodError issues _ =>
          Throw (VAppError VALIDATION_ERROR
                   (lit "Invalid description: " ++ firstIssueMessage issues)
                   error)
      | _ => Throw error
      end
  end.

(** [Object.values(TargetLength).join(', ')]. *)
Definition validLengths : jsstring :=
  join (lit ", ") (List.map TargetLength_value TargetLength_values).

(** [length] is [string | undefined]; [!length] holds for [undefined] and
    for the empty string. *)
Definition validateTargetLength (length : option jsstring)
  : Completion (option TargetLength) :=
  match length with
  | None => Return None
  | Some [] => Return None
  | Some s =>
      match Zod.parseTargetLength zodMessage (Some s) with
      | Return t => Return t
      | Throw error =>
          Throw (VAppError VALIDATION_ERROR
                   (lit "Invalid target length: " ++ [34%N] ++ s ++ [34%N]
                    ++ lit ". Valid options are: " ++ validLengths)
                   error)
      end
  end.

Definition sanitizeInput (input : jsstring) : jsstring :=
  trim (unescapeNewlines (removeAngles input)).

Definition isEmptyOrWhitespace (str : jsstring) : bool :=
  Nat.eqb (length (trim str)) 0.

End Validation.

(* ================================================================== *)
(** ** src/utils/openai-client.ts *)
(* ================================================================== *)

(** [error.status === code], where [status] is a number or [undefined]. *)
Definition statusIs (status : option Z) (code : Z) : bool :=
  match status with
  | Some st => (st =? code)%Z
  | None => false
  end.

(** [handleOpenAIError(error: unknown): never].  The declared result type
    [never] has no values, so the function can only end by throwing; the
    logging calls are left out, they do not influence what is thrown. *)
Definition handleOpenAIError (error : JsValue) : Completion Empty_set :=
  match error with
  | VAPIError status message =>
      if statusIs status 401 then
        Throw (VAppError API_KEY_ERROR
                 (lit "Invalid OpenAI API key. Please check your configuration.")
                 error)
      else if statusIs status 429 then
        Throw (VAppError RATE_LIMIT_ERROR
                 (lit "OpenAI API rate limit exceeded. Please try again later.")
                 error)
      else
        Throw (VAppError API_ERROR
                 (lit "OpenAI API error: " ++ message)
                 error)
  | _ =>
      if instanceofError error
         && (includes (errorMessage error) (lit "ECONNREFUSED")
             || includes (errorMessage error) (lit "ETIMEDOUT"))
      then
        Throw (VAppError NETWORK_ERROR
                 (lit "Unable to connect to OpenAI API. Please check your internet connection.")
                 error)
      else
        Throw (VAppError UNKNOWN_ERROR
                 (lit "An unexpected error occurred while calling OpenAI API")
                 error)
  end.

(* ================================================================== *)
(** ** src/types/index.ts: configuration, request, response *)
(* ================================================================== *)

Record OpenAIConfig := {
  apiKey : jsstring;
  model : jsstring;
  maxTokens : Z;
  temperature : Q
}.

Record AppConfig := {
  environment : jsstring;
  logLevel : jsstring;
  openai : OpenAIConfig
}.

Record ParaphraseRequest := {
  description : jsstring;
  targetLength : option TargetLength
}.

(** [timestamp] is a [Date], kept as its time value in milliseconds;
    [tokensUsed] is optional. *)
Record ParaphraseResponse := {
  original : jsstring;
  paraphrased : jsstring;
  timestamp : Z;
  tokensUsed : option Z
}.

(* ================================================================== *)
(** ** The chat-completion endpoint as the service sees it *)
(* ================================================================== *)

Inductive Role := system | user.

Record ChatMessage := {
  role : Role;
  content : jsstring
}.

(** The argument of [chat.completions.create]. *)
Record CreateParams := {
  params_model : jsstring;
  params_messages : list ChatMessage;
  params_max_tokens : Z;
  params_temperature : Q;
  params_n : Z
}.

(** The parts of the resolved completion the service reads:
    [choices[i].message.content] (string or null) and
    [usage.total_tokens]. *)
Record ChoiceMessage := { message_content : option jsstring }.

Record Choice := { choice_message : option ChoiceMessage }.

Record Usage := { total_tokens : Z }.

Record ChatCompletion := {
  choices : list Choice;
  usage : option Usage
}.

(** A run of the service: the requests it sent to the endpoint, in order,
    and how the call ended. *)
Record Run (A : Type) := mkRun {
  apiCalls : list CreateParams;
  outcome : Completion A
}.

Arguments mkRun {A} apiCalls outcome.
Arguments apiCalls {A} r.
Arguments outcome {A} r.

(* ================================================================== *)
(** ** src/services/paraphrase.service.ts *)
(* ================================================================== *)

Definition baseInstruction : jsstring :=
  lit "You are a helpful assistant that rewrites product descriptions. "
  ++ lit "Use simple, clear language that anyone can understand. "
  ++ lit "Keep the meaning and all important details, but use different words and sentence structures. ".

Definition shortClause : jsstring :=
  lit "Make the paraphrase concise and shorter than the original. ".

Definition longClause : jsstring :=
  lit "Expand the description with more details and context. ".

Definition mediumClause : jsstring :=
  lit "Keep the paraphrase approximately the same length as the original. ".

Definition closingSentence : jsstring :=
  lit "The paraphrase should be easy to read and understand while being completely different from the original text.".

(** A string is truthy when it is not empty. *)
Definition truthy (s : jsstring) : bool :=
  match s with [] => false | _ :: _ => true end.

(** [generateSystemPrompt(targetLength?)].  The [if (targetLength)] guard
    skips the [switch] for [undefined]; inside the [switch], ['medium'] and
    [default] share one branch. *)
Definition generateSystemPrompt (targetLength : option TargetLength)
  : jsstring :=
  let prompt := baseInstruction in
  let prompt :=
    match targetLength with
    | Some t =>
        if truthy (TargetLength_value t) then
          match t with
          | SHORT => prompt ++ shortClause
          | LONG => prompt ++ longClause
          | _ => prompt ++ mediumClause
          end
        else prompt
    | None => prompt
    end in
  prompt ++ closingSentence.

Definition generateUserPrompt (description : jsstring) : jsstring :=
  lit "Please paraphrase the following product description:" ++ [10%N; 10%N]
  ++ description.

(** The two messages [paraphrase] prepares. *)
Definition buildMessages (request : ParaphraseRequest) : list ChatMessage :=
  [ {| role := system;
       content := generateSystemPrompt (targetLength request) |};
    {| role := user;
       content := generateUserPrompt (description request) |} ].

(** The contents of the messages with role [system]. *)
Definition systemMessages (messages : list ChatMessage) : list jsstring :=
  List.map content
    (filter (fun m => match role m with system => true | user => false end)
            messages).

Definition userMessages (messages : list ChatMessage) : list jsstring :=
  List.map content
    (filter (fun m => match role m with user => true | system => false end)
            messages).

(** The three length clauses, and those of them that occur in a prompt. *)
Definition lengthClauses : list jsstring :=
  [shortClause; mediumClause; longClause].

Definition clausesIn (prompt : jsstring) : list jsstring :=
  filter (includes prompt) lengthClauses.

(** The hints a request can carry: none, or one of the three members. *)
Definition allHints : list (option TargetLength) :=
  [None; Some SHORT; Some MEDIUM; Some LONG].

(** [completion.choices[0]?.message?.content?.trim()]: [None] stands for
    [undefined]. *)
Definition firstContentTrimmed (completion : ChatCompletion)
  : option jsstring :=
  match choices completion with
  | [] => None
  | c :: _ =>
      match choice_message c with
      | None => None
      | Some m =>
          match message_content m with
          | None => None
          | Some text => Some (trim text)
          end
      end
  end.

Section Service.

(** The process-wide collaborators: the configuration singleton, the
    client ([create] is the awaited [chat.completions.create]: it resolves
    with a completion or rejects with a thrown value) and the clock read
    by [new Date()]. *)
Variable config : AppConfig.
Variable create : CreateParams -> Completion ChatCompletion.
Variable now : Z.

Definition createParams (request : ParaphraseRequest) : CreateParams :=
  {| params_model := model (openai config);
     params_messages := buildMessages request;
     params_max_tokens := maxTokens (openai config);
     params_temperature := temperature (openai config);
     params_n := 1 |}.

(** The body of the [try] block. *)
Definition tryParaphrase (request : ParaphraseRequest)
  : Completion ParaphraseResponse :=
  match create (createParams request) with
  | Throw error => Throw error
  | Return completion =>
      match firstContentTrimmed completion with
      | None | Some [] =>
          Throw (VError (lit "No paraphrase generated from the API"))
      | Some paraphrasedText =>
          Return {| original := description request;
                    paraphrased := paraphrasedText;
                    timestamp := now;
                    tokensUsed := option_map total_tokens (usage completion) |}
      end
  end.

(** [ParaphraseService.paraphrase]: whatever the [try] block throws is
    handed to [handleOpenAIError]. *)
Definition paraphrase (request : ParaphraseRequest)
  : Run ParaphraseResponse :=
  mkRun [createParams request]
    match tryParaphrase request with
    | Return response => Return response
    | Throw error =>
        match handleOpenAIError error with
        | Throw converted => Throw converted
        | Return impossible => match impossible with end
        end
    end.

End Service.

Section Similarity.

(** [String.prototype.toLowerCase] is the host's Unicode case mapping; it
    is a parameter here and [asciiLower] is its restriction to ASCII. *)
Variable toLowerCase : jsstring -> jsstring.

Definition originalWords (original : jsstring) : list jsstring :=
  splitWhiteSpace (toLowerCase original).

Definition paraphrasedWords (paraphrased : jsstring) : list jsstring :=
  splitWhiteSpace (toLowerCase paraphrased).

(** [originalWords.filter((word) => paraphrasedWords.includes(word))]. *)
Definition commonWords (original paraphrased : jsstring) : list jsstring :=
  filter (arrayIncludes (paraphrasedWords paraphrased))
         (originalWords original).

Definition commonCount (original paraphrased : jsstring) : nat :=
  length (commonWords original paraphrased).

Definition largerCount (original paraphrased : jsstring) : nat :=
  Nat.max (length (originalWords original))
          (length (paraphrasedWords paraphrased)).

(** [commonWords.length / Math.max(originalWords.length,
    paraphrasedWords.length)].  Both counts are positive integers far
    below 2^53, where the double quotient compares with the literal [0.7]
    exactly as the rational does. *)
Definition similarity (original paraphrased : jsstring) : Q :=
  (Z.of_nat (commonCount original paraphrased)
   # Pos.of_nat (largerCount original paraphrased))%Q.

Definition isSignificantlyDifferent (original paraphrased : jsstring)
  : bool :=
  if eqb (toLowerCase original) (toLowerCase paraphrased) then false
  else negb (Qle_bool (7 # 10)%Q (similarity original paraphrased)).

End Similarity.

(* ================================================================== *)
(** ** src/cli.ts and one turn of the loop of src/index.ts *)
(* ================================================================== *)

Section Cli.

Variable zodMessage : list ZodIssue -> jsstring.
Variable config : AppConfig.
Variable create : CreateParams -> Completion ChatCompletion.
Variable now : Z.

(** [promptForDescription], from the non-empty lines that were read: the
    [catch] prints the message and rethrows. *)
Definition promptForDescription (lines : list jsstring)
  : Completion jsstring :=
  let description := join [10%N] lines in
  let sanitized := sanitizeInput description in
  validateDescription zodMessage sanitized.

(** [promptForTargetLength], from the index [keyInSelect] returned. *)
Definition promptForTargetLength (index : Z) : option TargetLength :=
  if (index =? 0)%Z then None
  else if (index =? 1)%Z then Some SHORT
  else if (index =? 2)%Z then Some MEDIUM
  else if (index =? 3)%Z then Some LONG
  else None.

(** The body of the [while] loop of [runInteractiveCLI] up to the result of
    [paraphrase]: a throw of [promptForDescription] leaves the [try]
    before the service is reached. *)
Definition turn (lines : list jsstring) (index : Z)
  : Run ParaphraseResponse :=
  match promptForDescription lines with
  | Throw error => mkRun [] (Throw error)
  | Return d =>
      paraphrase config create now
        {| description := d;
           targetLength := promptForTargetLength index |}
  end.

End Cli.

(* ================================================================== *)
(** ** The specification's reading of the similarity helper *)
(* ================================================================== *)

Section ClaimedSimilarity.

Variable toLowerCase : jsstring -> jsstring.

(** The overlap as the specification words it: the count of words in the
    paraphrase also present in the original, over the larger of the two
    word counts. *)
Definition claimedOverlap (original paraphrased : jsstring) : Q :=
  (Z.of_nat (length (filter (arrayIncludes (originalWords toLowerCase original))
                            (paraphrasedWords toLowerCase paraphrased)))
   # Pos.of_nat (Nat.max (length (originalWords toLowerCase original))
                         (length (paraphrasedWords toLowerCase paraphrased))))%Q.

(** "returns true when overlap is below 0.7, or when the two texts are not
    case-insensitively identical". *)
Definition claimedSignificantlyDifferent (original paraphrased : jsstring)
  : bool :=
  negb (Qle_bool (7 # 10)%Q (claimedOverlap original paraphrased))
  || negb (eqb (toLowerCase original) (toLowerCase paraphrased)).

End ClaimedSimilarity.

(* ================================================================== *)
(** ** The specification's notion of a completion without usable text *)
(* ================================================================== *)

(** "Empty candidate list, or a first candidate with missing or empty
    message content". *)
Definition noUsableText (completion : ChatCompletion) : bool :=
  match choices completion with
  | [] => true
  | c :: _ =>
      match choice_message c with
      | None => true
      | Some m =>
          match message_content m with
          | None | Some [] => true
          | Some (_ :: _) => false
          end
      end
  end.

(* ================================================================== *)
(** ** Stubs and sample data for the examples *)
(* ================================================================== *)

Module Sample.

Definition zodMessage (issues : list ZodIssue) : jsstring :=
  lit "validation failed".

Definition config : AppConfig :=
  {| environment := lit "test";
     logLevel := lit "info";
     openai := {| apiKey := lit "sk-test";
                  model := lit "gpt-3.5-turbo";
                  maxTokens := 150;
                  temperature := (7 # 10)%Q |} |}.

Definition walletDescription : jsstring :=
  lit "This premium leather wallet features multiple card slots, a bill compartment, and RFID protection for secure storage.".

Definition walletRewrite : jsstring :=
  lit "A high-quality leather wallet with card slots, bill space, and technology to protect your cards from scanning.".

Definition walletRequest : ParaphraseRequest :=
  {| description := walletDescription; targetLength := None |}.

Definition completionWith (text : option jsstring) (tokens : Z)
  : ChatCompletion :=
  {| choices := [ {| choice_message :=
                       Some {| message_content := text |} |} ];
     usage := Some {| total_tokens := tokens |} |}.

(** An endpoint that answers every request with the shorter rewrite and
    reports 89 tokens. *)
Definition rewriteStub (_ : CreateParams) : Completion ChatCompletion :=
  Return (completionWith (Some walletRewrite) 89).

(** An endpoint that answers with an empty candidate list. *)
Definition emptyStub (_ : CreateParams) : Completion ChatCompletion :=
  Return {| choices := []; usage := Some {| total_tokens := 12 |} |}.

(** An endpoint whose only candidate is a single space. *)
Definition blankStub (_ : CreateParams) : Completion ChatCompletion :=
  Return (completionWith (Some [32%N]) 89).

(** An endpoint that rejects every request with [error]. *)
Definition rejectStub (error : JsValue) (_ : CreateParams)
  : Completion ChatCompletion :=
  Throw error.

End Sample.

(* ================================================================== *)
(** ** src/cli.ts: reading the description *)
(* ================================================================== *)

(** The [while (emptyLineCount < 2)] loop of [promptForDescription] over the
    lines the user types, one per [readlineSync.question]: an empty line
    raises the counter, any other line resets it and is pushed.  The result
    is the collected lines with the input not yet read, or [None] when the
    input ends while the loop still waits for a line. *)
Fixpoint readLines (emptyLineCount : nat) (lines : list jsstring)
         (input : list jsstring) : option (list jsstring * list jsstring) :=
  match input with
  | [] => if emptyLineCount <? 2 then None else Some (lines, [])
  | line :: rest =>
      if emptyLineCount <? 2 then
        if eqb line [] then readLines (S emptyLineCount) lines rest
        else readLines 0 (lines ++ [line]) rest
      else Some (lines, input)
  end.

(** Two consecutive empty lines occur in the input. *)
Fixpoint hasTwoEmptyLines (input : list jsstring) : bool :=
  match input with
  | a :: rest =>
      match rest with
      | b :: _ => (eqb a [] && eqb b []) || hasTwoEmptyLines rest
      | [] => false
      end
  | [] => false
  end.

(* ================================================================== *)
(** ** src/utils/openai-client.ts: the client and its singleton *)
(* ================================================================== *)

(** The [ClientOptions] handed to [new OpenAI(...)]; the client is
    identified with the options it was built from. *)
Record ClientOptions := {
  options_apiKey : jsstring;
  options_timeout : Z;
  options_maxRetries : Z
}.

(** [createOpenAIClient()], with the configuration [config()] returns as
    argument. *)
Definition createOpenAIClient (appConfig : AppConfig)
  : Completion ClientOptions :=
  if negb (truthy (apiKey (openai appConfig))) then
    Throw (VAppError API_KEY_ERROR
             (lit "OpenAI API key is not configured. Please set OPENAI_API_KEY environment variable.")
             VUndefined)
  else
    Return {| options_apiKey := apiKey (openai appConfig);
              options_timeout := 30000;
              options_maxRetries := 3 |}.



(* ================================================================== *)
(** ** The config module: validation of the environment *)
(* ================================================================== *)

Module Config.

(** [process.env]: a name is bound to a string or not at all. *)
Definition ProcessEnv := jsstring -> option jsstring.

(** What [validateEnv] reads of a zod issue: [path] and [message]. *)
Record Issue := mkIssue {
  issue_path : list jsstring;
  issue_text : jsstring
}.

(** The result of parsing one key of the object schema. *)
Inductive Field (A : Type) :=
| Parsed (a : A)
| Rejected (i : Issue).

Arguments Parsed {A} a.
Arguments Rejected {A} i.

Definition fieldIssues {A} (f : Field A) : list Issue :=
  match f with Parsed _ => [] | Rejected i => [i] end.

(** zod's message for a string outside a [z.enum]. *)
Definition expectedOneOf (options : list jsstring) (received : jsstring)
  : jsstring :=
  lit "Invalid enum value. Expected "
  ++ join (lit " | ") (List.map Zod.quoted options)
  ++ lit ", received " ++ Zod.quoted received.

(** [z.string().min(1, 'OpenAI API key is required')]: an unbound name is
    reported with zod's message [Required]. *)
Definition parseRequired (name : jsstring) (v : option jsstring)
  : Field jsstring :=
  match v with
  | None => Rejected (mkIssue [name] (lit "Required"))
  | Some [] => Rejected (mkIssue [name] (lit "OpenAI API key is required"))
  | Some s => Parsed s
  end.

(** [z.string().default(d)]. *)
Definition parseDefault (d : jsstring) (v : option jsstring) : jsstring :=
  match v with
  | None => d
  | Some s => s
  end.

(** [z.enum(options).default(d)]. *)
Definition parseEnum (name : jsstring) (options : list jsstring)
           (d : jsstring) (v : option jsstring) : Field jsstring :=
  match v with
  | None => Parsed d
  | Some s =>
      if arrayIncludes options s then Parsed s
      else Rejected (mkIssue [name] (expectedOneOf options s))
  end.

Definition environments : list jsstring :=
  [lit "development"; lit "production"; lit "test"].

Definition logLevels : list jsstring :=
  [lit "error"; lit "warn"; lit "info"; lit "debug"].

(** How [validateEnv] ends: with the parsed environment, or with the
    [AppError] it throws, given by its type, its message and the issues of
    the [ZodError] kept as details. *)
Inductive Outcome (A : Type) :=
| Valid (a : A)
| Invalid (type : ErrorType) (message : jsstring) (issues : list Issue).

Arguments Valid {A} a.
Arguments Invalid {A} type message issues.

Section Env.

(** JavaScript numbers and [Number(string)] are kept abstract. *)
Variable Num : Type.
Variable Number : jsstring -> Num.

Record Env := {
  OPENAI_API_KEY : jsstring;
  OPENAI_MODEL : jsstring;
  MAX_TOKENS : Num;
  TEMPERATURE : Num;
  NODE_ENV : jsstring;
  LOG_LEVEL : jsstring
}.

(** [envSchema.parse(process.env)]: the keys are parsed in the order of the
    schema and every issue is collected. *)
Definition parseEnv (env : ProcessEnv) : Env + list Issue :=
  let key := parseRequired (lit "OPENAI_API_KEY") (env (lit "OPENAI_API_KEY")) in
  let model := parseDefault (lit "gpt-5-nano") (env (lit "OPENAI_MODEL")) in
  let maxTokens := Number (parseDefault (lit "150") (env (lit "MAX_TOKENS"))) in
  let temperature :=
    Number (parseDefault (lit "0.7") (env (lit "TEMPERATURE"))) in
  let nodeEnv :=
    parseEnum (lit "NODE_ENV") environments (lit "development")
              (env (lit "NODE_ENV")) in
  let level :=
    parseEnum (lit "LOG_LEVEL") logLevels (lit "info")
              (env (lit "LOG_LEVEL")) in
  match key, nodeEnv, level with
  | Parsed k, Parsed e, Parsed l =>
      inl {| OPENAI_API_KEY := k;
             OPENAI_MODEL := model;
             MAX_TOKENS := maxTokens;
             TEMPERATURE := temperature;
             NODE_ENV := e;
             LOG_LEVEL := l |}
  | _, _, _ => inr (fieldIssues key ++ fieldIssues nodeEnv ++ fieldIssues level)
  end.

(** [`${issue.path.join('.')}: ${issue.message}`]. *)
Definition renderIssue (i : Issue) : jsstring :=
  join (lit ".") (issue_path i) ++ lit ": " ++ issue_text i.

Definition validateEnv (env : ProcessEnv) : Outcome Env :=
  match parseEnv env with
  | inl parsed => Valid parsed
  | inr issues =>
      Invalid VALIDATION_ERROR
        (lit "Environment validation failed: "
         ++ join (lit ", ") (List.map renderIssue issues))
        issues
  end.

End Env.

Arguments OPENAI_API_KEY {Num} e.
Arguments OPENAI_MODEL {Num} e.
Arguments MAX_TOKENS {Num} e.
Arguments TEMPERATURE {Num} e.
Arguments NODE_ENV {Num} e.
Arguments LOG_LEVEL {Num} e.

End Config.

(* ================================================================== *)
(** ** src/index.ts: error display and the interactive loop *)
(* ================================================================== *)

(** What the application puts on the console through [cli.displayResult],
    [cli.displayError] and [cli.displayGoodbye], by the arguments of the
    call; the header, the loading line and the colours are left out. *)
Inductive Display :=
| DisplayResult (original paraphrased : jsstring) (tokensUsed : option Z)
| DisplayError (message : jsstring)
| DisplayGoodbye.

(** [Application.handleError]. *)
Definition handleError (error : JsValue) : list Display :=
  match error with
  | VAppError type message _ =>
      match type with
      | API_KEY_ERROR =>
          [ DisplayError (lit "API key error: " ++ message);
            DisplayError (lit "Please check your OPENAI_API_KEY in the .env file") ]
      | RATE_LIMIT_ERROR =>
          [ DisplayError (lit "Rate limit exceeded. Please wait a moment and try again.") ]
      | NETWORK_ERROR =>
          [ DisplayError (lit "Network error. Please check your internet connection.") ]
      | VALIDATION_ERROR => [ DisplayError message ]
      | _ => [ DisplayError (lit "An unexpected error occurred. Please try again.") ]
      end
  | _ => [ DisplayError (lit "An unexpected error occurred.") ]
  end.

(** [Application.isFatalError]. *)
Definition isFatalError (error : JsValue) : bool :=
  match error with
  | VAppError API_KEY_ERROR _ _ => true
  | _ => false
  end.

Definition similarityWarning : jsstring :=
  lit "The generated paraphrase is very similar to the original. "
  ++ lit "Try using a different tone or length setting.".

(** The user's part in one turn: the lines collected for the description,
    the index chosen for the length and the answer to
    [promptToContinue].  The last two are only asked for when the turn gets
    that far. *)
Record TurnInput := {
  typed_lines : list jsstring;
  selected_index : Z;
  wants_more : bool
}.

(** How [runInteractiveCLI] ends: the loop is left normally, an error is
    rethrown out of it, or the scripted input is used up while the loop
    runs on. *)
Inductive Ending :=
| Finished
| Aborted (error : JsValue)
| AwaitingInput.

Record Session := {
  displayed : list Display;
  requests : list CreateParams;
  ending : Ending
}.

Definition before (shown : list Display) (sent : list CreateParams)
           (s : Session) : Session :=
  {| displayed := shown ++ displayed s;
     requests := sent ++ requests s;
     ending := ending s |}.

Section Application.

Variable zodMessage : list ZodIssue -> jsstring.
Variable config : AppConfig.
Variable create : CreateParams -> Completion ChatCompletion.
Variable now : Z.
Variable toLowerCase : jsstring -> jsstring.

(** [Application.runInteractiveCLI], one scripted turn per iteration of the
    [while] loop. *)
Fixpoint runInteractiveCLI (script : list TurnInput) : Session :=
  match script with
  | [] => {| displayed := []; requests := []; ending := AwaitingInput |}
  | input :: rest =>
      let run := turn zodMessage config create now
                      (typed_lines input) (selected_index input) in
      match outcome run with
      | Return response =>
          let shown :=
            DisplayResult (original response) (paraphrased response)
                          (tokensUsed response)
            :: (if negb (isSignificantlyDifferent toLowerCase
                           (original response) (paraphrased response))
                then [DisplayError similarityWarning]
                else []) in
          if wants_more input
          then before shown (apiCalls run) (runInteractiveCLI rest)
          else {| displayed := shown ++ [DisplayGoodbye];
                  requests := apiCalls run;
                  ending := Finished |}
      | Throw error =>
          if isFatalError error
          then {| displayed := handleError error;
                  requests := apiCalls run;
                  ending := Aborted error |}
          else before (handleError error) (apiCalls run)
                      (runInteractiveCLI rest)
      end
  end.

End Application.

(* ================================================================== *)
(** ** Observations used in the statements *)
(* ================================================================== *)

(** The two code units the un-escaping looks for: a backslash and 'n'. *)
Definition escapedNewline : jsstring := [92%N; 110%N].

(** The [message] of a thrown [AppError]. *)
Definition thrownMessage {A} (c : Completion A) : option jsstring :=
  match c with
  | Throw (VAppError _ m _) => Some m
  | _ => None
  end.

(** A line that is not the empty string. *)
Definition nonEmptyLine (line : jsstring) : bool := negb (eqb line []).

(* ================================================================== *)
(** ** Scenarios for the examples *)
(* ================================================================== *)

Module Scenario.

(** A turn whose description is too short. *)
Definition shortTurn : TurnInput :=
  {| typed_lines := [lit "Too short"];
     selected_index := 0;
     wants_more := true |}.

(** A turn with the wallet description, the short length, and no wish to
    go on. *)
Definition walletTurn : TurnInput :=
  {| typed_lines := [Sample.walletDescription];
     selected_index := 1;
     wants_more := false |}.

(** An endpoint that rejects every request for an invalid key. *)
Definition badKeyStub : CreateParams -> Completion ChatCompletion :=
  Sample.rejectStub (VAPIError (Some 401%Z) (lit "Incorrect API key provided")).

Definition configWithKey (key : jsstring) : AppConfig :=
  {| environment := lit "test";
     logLevel := lit "info";
     openai := {| apiKey := key;
                  model := lit "gpt-3.5-turbo";
                  maxTokens := 150;
                  temperature := (7 # 10)%Q |} |}.

(** An environment that binds [OPENAI_API_KEY] and nothing else. *)
Definition keyOnly (key : jsstring) : Config.ProcessEnv :=
  fun name => if eqb name (lit "OPENAI_API_KEY") then Some key else None.

(** An environment that binds nothing. *)
Definition emptyEnv : Config.ProcessEnv := fun _ => None.

End Scenario.

(* ================================================================== *)
(** * Properties *)
(* ================================================================== *)

(** ** Strings *)

Lemma eqb_eq (a b : jsstring) : eqb a b = true <-> a = b.
Proof.
  unfold eqb. destruct (list_eq_dec N.eq_dec a b); split; congruence.
Qed.

Lemma eqb_refl (a : jsstring) : eqb a a = true.
Proof. now apply eqb_eq. Qed.

Lemma eqb_neq (a b : jsstring) : eqb a b = false <-> a <> b.
Proof.
  unfold eqb. destruct (list_eq_dec N.eq_dec a b); split; congruence.
Qed.

Lemma trimStart_head (s : jsstring) :
  startsWithWhiteSpace (trimStart s) = false.
Proof.
  induction s as [|c s IH]; simpl; [reflexivity|].
  destruct (isWhiteSpace c) eqn:E; [exact IH|]. simpl. exact E.
Qed.

Lemma trimStart_incl (s : jsstring) (x : code_unit) :
  In x (trimStart s) -> In x s.
Proof.
  induction s as [|c s IH]; simpl; [tauto|].
  destruct (isWhiteSpace c); simpl; tauto.
Qed.

Lemma trimStart_snoc (s : jsstring) (c : code_unit) :
  isWhiteSpace c = false -> trimStart (s ++ [c]) = trimStart s ++ [c].
Proof.
  intros Hc. induction s as [|d s IH]; simpl.
  - now rewrite Hc.
  - destruct (isWhiteSpace d); [exact IH | reflexivity].
Qed.

Lemma trimStart_length (s : jsstring) : length (trimStart s) <= length s.
Proof.
  induction s as [|c s IH]; simpl; [lia|].
  destruct (isWhiteSpace c); simpl; lia.
Qed.

Lemma trimStart_fixed (s : jsstring) :
  startsWithWhiteSpace s = false -> trimStart s = s.
Proof.
  destruct s as [|c s]; simpl; [reflexivity|]. now intros ->.
Qed.

Lemma trim_incl (s : jsstring) (x : code_unit) : In x (trim s) -> In x s.
Proof.
  unfold trim, trimEnd. intros H.
  apply trimStart_incl. apply in_rev.
  apply trimStart_incl. now apply in_rev.
Qed.

Lemma trim_length (s : jsstring) : length (trim s) <= length s.
Proof.
  unfold trim, trimEnd. rewrite length_rev.
  etransitivity; [apply trimStart_length|].
  rewrite length_rev. apply trimStart_length.
Qed.

Lemma trim_no_trailing (s : jsstring) : endsWithWhiteSpace (trim s) = false.
Proof.
  unfold endsWithWhiteSpace, trim, trimEnd.
  rewrite rev_involutive. apply trimStart_head.
Qed.

Lemma trim_no_leading (s : jsstring) : startsWithWhiteSpace (trim s) = false.
Proof.
  unfold trim, trimEnd.
  pose proof (trimStart_head s) as H.
  destruct (trimStart s) as [|c t]; [reflexivity|].
  simpl in H. simpl rev.
  rewrite (trimStart_snoc (rev t) c H), rev_app_distr. simpl. exact H.
Qed.

(** A string without white space at either end is left alone by [trim]. *)
Lemma trim_fixed (s : jsstring) :
  startsWithWhiteSpace s = false -> endsWithWhiteSpace s = false ->
  trim s = s.
Proof.
  intros Hs He. unfold trim, trimEnd.
  rewrite (trimStart_fixed s Hs), (trimStart_fixed (rev s) He).
  apply rev_involutive.
Qed.

Lemma removeAngles_spec (s : jsstring) (x : code_unit) :
  In x (removeAngles s) -> isAngle x = false /\ In x s.
Proof.
  unfold removeAngles. intros H. apply filter_In in H.
  destruct H as [H1 H2]. split; [|exact H1].
  now destruct (isAngle x).
Qed.

Lemma unescapeNewlines_step (c d : code_unit) (s : jsstring) :
  unescapeNewlines (c :: d :: s) =
  if ((c =? 92) && (d =? 110))%N
  then 10%N :: unescapeNewlines s
  else c :: unescapeNewlines (d :: s).
Proof. reflexivity. Qed.

(** The un-escaping only ever introduces LINE FEED. *)
Lemma unescapeNewlines_incl (s : jsstring) (x : code_unit) :
  In x (unescapeNewlines s) -> x = 10%N \/ In x s.
Proof.
  remember (length s) as n eqn:Hn.
  revert s Hn. induction n as [n IH] using lt_wf_ind. intros s Hn.
  destruct s as [|c [|d s]].
  - simpl. tauto.
  - simpl. tauto.
  - rewrite unescapeNewlines_step.
    destruct ((c =? 92) && (d =? 110))%N; intros [H|H].
    + now left.
    + apply (IH (length s)) in H; [|simpl in Hn; lia | reflexivity].
      destruct H; [now left | right; right; now right].
    + right. now left.
    + apply (IH (length (d :: s))) in H; [|simpl in *; lia | reflexivity].
      destruct H; [now left | right; now right].
Qed.

(** ** src/utils/validation.ts *)

(** C9. For every input, the string [sanitizeInput] returns contains neither
    '<' (code unit 60) nor '>' (code unit 62), and neither its first nor its
    last code unit is white space. *)
Theorem sanitizeInput_clean (input : jsstring) :
  ~ In 60%N (sanitizeInput input)
  /\ ~ In 62%N (sanitizeInput input)
  /\ startsWithWhiteSpace (sanitizeInput input) = false
  /\ endsWithWhiteSpace (sanitizeInput input) = false.
Proof.
  unfold sanitizeInput.
  assert (Hangle : forall x, isAngle x = true ->
            ~ In x (trim (unescapeNewlines (removeAngles input)))).
  { intros x Hx Hin.
    apply trim_incl, unescapeNewlines_incl in Hin.
    destruct Hin as [-> | Hin]; [discriminate Hx|].
    apply removeAngles_spec in Hin. destruct Hin as [Hf _]. congruence. }
  repeat split.
  - now apply Hangle.
  - now apply Hangle.
  - apply trim_no_leading.
  - apply trim_no_trailing.
Qed.

(** What [sanitizeInput] returns is already trimmed. *)
Lemma sanitizeInput_trimmed (input : jsstring) :
  trim (sanitizeInput input) = sanitizeInput input.
Proof.
  unfold sanitizeInput.
  apply trim_fixed; [apply trim_no_leading | apply trim_no_trailing].
Qed.

Section ValidationFacts.

Variable zodMessage : list ZodIssue -> jsstring.

(** The schema accepts on the length of the string as it is passed in,
    and hands back the trimmed string. *)
Lemma validateDescription_accepts (s : jsstring) :
  MIN_DESCRIPTION_LENGTH <= length s <= MAX_DESCRIPTION_LENGTH ->
  validateDescription zodMessage s = Return (trim s).
Proof.
  intros [Hlo Hhi].
  unfold validateDescription, Zod.parseString, descriptionSchema.
  cbn [Zod.runChecks].
  destruct (Nat.ltb_spec (length s) MIN_DESCRIPTION_LENGTH); [lia|].
  destruct (Nat.ltb_spec MAX_DESCRIPTION_LENGTH (length s)); [lia|].
  reflexivity.
Qed.

Lemma validateDescription_rejects (s : jsstring) :
  length s < MIN_DESCRIPTION_LENGTH \/ MAX_DESCRIPTION_LENGTH < length s ->
  thrownType (validateDescription zodMessage s) = Some VALIDATION_ERROR
  /\ exists issues : list ZodIssue,
       thrownDetails (validateDescription zodMessage s)
       = Some (VZodError issues (zodMessage issues)).
Proof.
  intros H.
  unfold validateDescription, Zod.parseString, descriptionSchema.
  cbn [Zod.runChecks].
  destruct (Nat.ltb_spec (length s) MIN_DESCRIPTION_LENGTH);
    destruct (Nat.ltb_spec MAX_DESCRIPTION_LENGTH (length s));
    try (split; [reflexivity | eexists; reflexivity]).
  lia.
Qed.

(** The only thing [validateDescription] ever throws is a validation
    error. *)
Lemma validateDescription_total (s : jsstring) :
  validateDescription zodMessage s = Return (trim s)
  \/ thrownType (validateDescription zodMessage s) = Some VALIDATION_ERROR.
Proof.
  destruct (le_lt_dec MIN_DESCRIPTION_LENGTH (length s)) as [Hlo|Hlo];
    [destruct (le_lt_dec (length s) MAX_DESCRIPTION_LENGTH) as [Hhi|Hhi]|].
  - left. now apply validateDescription_accepts.
  - right. apply validateDescription_rejects. now right.
  - right. apply validateDescription_rejects. now left.
Qed.

(** C1. [validateDescription] compares the length of its argument before
    trimming it.  Nine spaces followed by "a" have trimmed length 1, yet the
    call returns "a"; 5000 letters followed by a space have trimmed length
    5000, yet the call throws a validation error. *)
Theorem validateDescription_checks_untrimmed_length :
  length (trim (repeat 32%N 9 ++ lit "a")) = 1
  /\ validateDescription zodMessage (repeat 32%N 9 ++ lit "a")
     = Return (lit "a")
  /\ length (trim (repeat 97%N 5000 ++ [32%N])) = 5000
  /\ thrownType (validateDescription zodMessage (repeat 97%N 5000 ++ [32%N]))
     = Some VALIDATION_ERROR.
Proof.
  split; [vm_compute; reflexivity|].
  split; [rewrite validateDescription_accepts;
          [vm_compute; reflexivity | vm_compute; lia]|].
  split; [vm_compute; reflexivity|].
  apply validateDescription_rejects. right.
  rewrite length_app, repeat_length. unfold MAX_DESCRIPTION_LENGTH.
  simpl. lia.
Qed.

(** On the path of the command line the argument is already trimmed, so
    there the bounds are bounds on the trimmed text. *)
Lemma promptForDescription_accepts (lines : list jsstring) :
  let sanitized := sanitizeInput (join [10%N] lines) in
  MIN_DESCRIPTION_LENGTH <= length sanitized <= MAX_DESCRIPTION_LENGTH ->
  promptForDescription zodMessage lines = Return sanitized.
Proof.
  intros sanitized H. unfold promptForDescription.
  fold sanitized. rewrite validateDescription_accepts by exact H.
  unfold sanitized. now rewrite sanitizeInput_trimmed.
Qed.

(** A turn whose description is rejected sends nothing to the endpoint. *)
Lemma turn_rejected_no_call (config : AppConfig)
      (create : CreateParams -> Completion ChatCompletion) (now : Z)
      (lines : list jsstring) (index : Z) :
  forall error : JsValue,
    promptForDescription zodMessage lines = Throw error ->
    turn zodMessage config create now lines index = mkRun [] (Throw error).
Proof.
  intros error H. unfold turn. now rewrite H.
Qed.

(** C10. [validateTargetLength] returns [undefined] for [undefined] and
    for the empty string; it returns the member itself for each of
    'short', 'medium', 'long'; for every other non-empty string it throws
    an [AppError] of type [VALIDATION_ERROR]. *)
Theorem validateTargetLength_spec :
  validateTargetLength zodMessage None = Return None
  /\ validateTargetLength zodMessage (Some []) = Return None
  /\ (forall t : TargetLength,
        validateTargetLength zodMessage (Some (TargetLength_value t))
        = Return (Some t))
  /\ (forall s : jsstring,
        s <> [] ->
        (forall t : TargetLength, s <> TargetLength_value t) ->
        thrownType (validateTargetLength zodMessage (Some s))
        = Some VALIDATION_ERROR).
Proof.
  repeat split.
  - intros []; reflexivity.
  - intros s Hne Hnot.
    destruct s as [|c s]; [congruence|].
    unfold validateTargetLength, Zod.parseTargetLength, TargetLength_values.
    cbn [find].
    destruct (eqb (TargetLength_value SHORT) (c :: s)) eqn:E1;
      [apply eqb_eq in E1; symmetry in E1; now apply Hnot in E1|].
    destruct (eqb (TargetLength_value MEDIUM) (c :: s)) eqn:E2;
      [apply eqb_eq in E2; symmetry in E2; now apply Hnot in E2|].
    destruct (eqb (TargetLength_value LONG) (c :: s)) eqn:E3;
      [apply eqb_eq in E3; symmetry in E3; now apply Hnot in E3|].
    reflexivity.
Qed.

End ValidationFacts.

Lemma validateTargetLength_spec_witness :
  lit "huge" <> []
  /\ (forall t : TargetLength, lit "huge" <> TargetLength_value t)
  /\ thrownType (validateTargetLength Sample.zodMessage (Some (lit "huge")))
     = Some VALIDATION_ERROR.
Proof.
  assert (H1 : lit "huge" <> []) by discriminate.
  assert (H2 : forall t : TargetLength, lit "huge" <> TargetLength_value t)
    by (intros []; discriminate).
  split; [exact H1|]. split; [exact H2|].
  exact (proj2 (proj2 (proj2 (validateTargetLength_spec Sample.zodMessage)))
           (lit "huge") H1 H2).
Defined.

(** ** src/utils/openai-client.ts *)

Lemma startsWith_refl (s : jsstring) : startsWith s s = true.
Proof.
  induction s as [|c s IH]; simpl; [reflexivity|].
  now rewrite N.eqb_refl, IH.
Qed.

Lemma includes_refl (s : jsstring) : includes s s = true.
Proof.
  destruct s; simpl; [reflexivity|].
  now rewrite N.eqb_refl, startsWith_refl.
Qed.

(** A string occurs in every string it is appended to. *)
Lemma includes_app_r (p s : jsstring) : includes (p ++ s) s = true.
Proof.
  induction p as [|c p IH]; simpl.
  - apply includes_refl.
  - rewrite IH. apply orb_true_r.
Qed.

(** Whatever it is given, [handleOpenAIError] throws an [AppError] that
    carries its argument as [details]. *)
Lemma handleOpenAIError_throws (error : JsValue) :
  exists (type : ErrorType) (message : jsstring),
    handleOpenAIError error = Throw (VAppError type message error).
Proof.
  unfold handleOpenAIError.
  destruct error as [| s | m | issues m | st m | t m d];
    try (destruct (_ && _); eauto).
  destruct (statusIs st 401); [eauto|].
  destruct (statusIs st 429); eauto.
Qed.

Lemma statusIs_other (status : option Z) (code : Z) :
  status <> Some code -> statusIs status code = false.
Proof.
  destruct status as [st|]; simpl; [|reflexivity].
  intros H. destruct (Z.eqb_spec st code); congruence.
Qed.

(** The outcome of [paraphrase] when the endpoint rejects with [error] is
    what [handleOpenAIError] throws for [error]. *)
Lemma paraphrase_rejected (config : AppConfig)
      (create : CreateParams -> Completion ChatCompletion) (now : Z)
      (request : ParaphraseRequest) (error : JsValue) :
  create (createParams config request) = Throw error ->
  exists (type : ErrorType) (message : jsstring),
    handleOpenAIError error = Throw (VAppError type message error)
    /\ outcome (paraphrase config create now request)
       = Throw (VAppError type message error).
Proof.
  intros H.
  destruct (handleOpenAIError_throws error) as (t & m & Ht).
  exists t, m. split; [exact Ht|].
  unfold paraphrase, tryParaphrase. cbn [outcome]. now rewrite H, Ht.
Qed.

(** C4. The classification of [handleOpenAIError], in the order of the
    code: an API error with status 401 becomes [API_KEY_ERROR], one with
    status 429 becomes [RATE_LIMIT_ERROR], any other API error becomes
    [API_ERROR] with a message that includes the upstream message; an error
    that is not an API error and whose message has the ECONNREFUSED or
    ETIMEDOUT signature becomes [NETWORK_ERROR]; everything else becomes
    [UNKNOWN_ERROR].  The result of a rejected [paraphrase] is determined by
    the rejection alone, whatever the request was. *)
Theorem handleOpenAIError_classification :
  (forall m : jsstring,
      thrownType (handleOpenAIError (VAPIError (Some 401%Z) m))
      = Some API_KEY_ERROR)
  /\ (forall m : jsstring,
        thrownType (handleOpenAIError (VAPIError (Some 429%Z) m))
        = Some RATE_LIMIT_ERROR)
  /\ (forall (st : option Z) (m : jsstring),
        st <> Some 401%Z -> st <> Some 429%Z ->
        exists text : jsstring,
          handleOpenAIError (VAPIError st m)
          = Throw (VAppError API_ERROR text (VAPIError st m))
          /\ includes text m = true)
  /\ (forall error : JsValue,
        instanceofAPIError error = false ->
        instanceofError error = true ->
        includes (errorMessage error) (lit "ECONNREFUSED") = true
        \/ includes (errorMessage error) (lit "ETIMEDOUT") = true ->
        thrownType (handleOpenAIError error) = Some NETWORK_ERROR)
  /\ (forall error : JsValue,
        instanceofAPIError error = false ->
        instanceofError error = false
        \/ (includes (errorMessage error) (lit "ECONNREFUSED") = false
            /\ includes (errorMessage error) (lit "ETIMEDOUT") = false) ->
        thrownType (handleOpenAIError error) = Some UNKNOWN_ERROR)
  /\ (forall (config : AppConfig)
             (create : CreateParams -> Completion ChatCompletion)
             (now1 now2 : Z) (request1 request2 : ParaphraseRequest)
             (error : JsValue),
        create (createParams config request1) = Throw error ->
        create (createParams config request2) = Throw error ->
        outcome (paraphrase config create now1 request1)
        = outcome (paraphrase config create now2 request2)).
Proof.
  split; [reflexivity|].
  split; [reflexivity|].
  split.
  { intros st m H401 H429. unfold handleOpenAIError.
    rewrite (statusIs_other st 401 H401), (statusIs_other st 429 H429).
    eexists. split; [reflexivity|]. apply includes_app_r. }
  split.
  { intros error Hapi Herr Hsig. unfold handleOpenAIError.
    assert (Hor : includes (errorMessage error) (lit "ECONNREFUSED")
                  || includes (errorMessage error) (lit "ETIMEDOUT") = true)
      by (apply orb_true_iff; exact Hsig).
    destruct error; try discriminate; rewrite Herr, Hor; reflexivity. }
  split.
  { intros error Hapi Hno. unfold handleOpenAIError.
    assert (Hand : instanceofError error
                   && (includes (errorMessage error) (lit "ECONNREFUSED")
                       || includes (errorMessage error) (lit "ETIMEDOUT"))
                   = false).
    { destruct Hno as [-> | [-> ->]]; [reflexivity | apply andb_false_r]. }
    destruct error; try discriminate; rewrite Hand; reflexivity. }
  intros config create now1 now2 request1 request2 error H1 H2.
  destruct (paraphrase_rejected config create now1 request1 error H1)
    as (t1 & m1 & E1 & ->).
  destruct (paraphrase_rejected config create now2 request2 error H2)
    as (t2 & m2 & E2 & ->).
  congruence.
Qed.

Lemma handleOpenAIError_classification_witness :
  (exists text : jsstring,
      handleOpenAIError (VAPIError (Some 500%Z) (lit "server overloaded"))
      = Throw (VAppError API_ERROR text
                 (VAPIError (Some 500%Z) (lit "server overloaded")))
      /\ includes text (lit "server overloaded") = true)
  /\ thrownType (handleOpenAIError
                   (VError (lit "connect ECONNREFUSED 127.0.0.1:443")))
     = Some NETWORK_ERROR
  /\ thrownType (handleOpenAIError (VString (lit "ECONNREFUSED")))
     = Some UNKNOWN_ERROR
  /\ outcome (paraphrase Sample.config
                (Sample.rejectStub (VAPIError (Some 401%Z) (lit "bad key")))
                0 Sample.walletRequest)
     = outcome (paraphrase Sample.config
                  (Sample.rejectStub (VAPIError (Some 401%Z) (lit "bad key")))
                  1 {| description := lit "Another product entirely.";
                       targetLength := Some SHORT |}).
Proof.
  destruct handleOpenAIError_classification
    as (_ & _ & Hother & Hnet & Hunknown & Hpayload).
  split; [apply Hother; discriminate|].
  split; [apply Hnet; [reflexivity | reflexivity | left; reflexivity]|].
  split; [apply Hunknown; [reflexivity | left; reflexivity]|].
  apply (Hpayload _ _ _ _ _ _ (VAPIError (Some 401%Z) (lit "bad key")));
    reflexivity.
Defined.

(** ** src/services/paraphrase.service.ts: the orchestrator *)

Section ServiceFacts.

Variable config : AppConfig.
Variable create : CreateParams -> Completion ChatCompletion.
Variable now : Z.

(** What is thrown inside the [try] block reaches the caller wrapped in
    one [AppError] whose [details] is the thrown value. *)
Lemma paraphrase_wraps (request : ParaphraseRequest) (cause : JsValue) :
  tryParaphrase config create now request = Throw cause ->
  exists (type : ErrorType) (message : jsstring),
    outcome (paraphrase config create now request)
    = Throw (VAppError type message cause).
Proof.
  intros H. destruct (handleOpenAIError_throws cause) as (t & m & Ht).
  exists t, m. unfold paraphrase. cbn [outcome]. now rewrite H, Ht.
Qed.

Lemma paraphrase_returns (request : ParaphraseRequest)
      (response : ParaphraseResponse) :
  tryParaphrase config create now request = Return response ->
  outcome (paraphrase config create now request) = Return response.
Proof.
  intros H. unfold paraphrase. cbn [outcome]. now rewrite H.
Qed.

(** C8. [handleOpenAIError] always throws an [AppError] holding its
    argument as [details].  [paraphrase] sends one request; when the
    endpoint rejects with [cause], or answers without text (the cause is
    then the local [Error]), the caller gets exactly one [AppError] whose
    type is one of the six members of [ErrorType] and whose [details] is
    that cause; it gets a response only when the endpoint answered with
    text. *)
Theorem paraphrase_raises_one_AppError (request : ParaphraseRequest) :
  (forall error : JsValue,
      exists (type : ErrorType) (message : jsstring),
        handleOpenAIError error = Throw (VAppError type message error))
  /\ apiCalls (paraphrase config create now request)
     = [createParams config request]
  /\ match create (createParams config request) with
     | Throw cause =>
         exists (type : ErrorType) (message : jsstring),
           outcome (paraphrase config create now request)
           = Throw (VAppError type message cause)
           /\ In type [API_KEY_ERROR; NETWORK_ERROR; API_ERROR;
                       VALIDATION_ERROR; RATE_LIMIT_ERROR; UNKNOWN_ERROR]
     | Return completion =>
         match firstContentTrimmed completion with
         | Some (c :: text) =>
             exists response : ParaphraseResponse,
               outcome (paraphrase config create now request)
               = Return response
               /\ paraphrased response = c :: text
         | _ =>
             exists (type : ErrorType) (message : jsstring),
               outcome (paraphrase config create now request)
               = Throw (VAppError type message
                          (VError (lit "No paraphrase generated from the API")))
               /\ In type [API_KEY_ERROR; NETWORK_ERROR; API_ERROR;
                           VALIDATION_ERROR; RATE_LIMIT_ERROR; UNKNOWN_ERROR]
         end
     end.
Proof.
  assert (Hall : forall t : ErrorType,
             In t [API_KEY_ERROR; NETWORK_ERROR; API_ERROR;
                   VALIDATION_ERROR; RATE_LIMIT_ERROR; UNKNOWN_ERROR])
    by (intros []; simpl; tauto).
  split; [exact handleOpenAIError_throws|].
  split; [reflexivity|].
  destruct (create (createParams config request)) as [completion|cause] eqn:E.
  - destruct (firstContentTrimmed completion) as [[|c text]|] eqn:F.
    + destruct (paraphrase_wraps request
                  (VError (lit "No paraphrase generated from the API")))
        as (t & m & H).
      { unfold tryParaphrase. now rewrite E, F. }
      exists t, m. split; [exact H | apply Hall].
    + eexists. split;
        [apply paraphrase_returns; unfold tryParaphrase;
         rewrite E, F; reflexivity | reflexivity].
    + destruct (paraphrase_wraps request
                  (VError (lit "No paraphrase generated from the API")))
        as (t & m & H).
      { unfold tryParaphrase. now rewrite E, F. }
      exists t, m. split; [exact H | apply Hall].
  - destruct (paraphrase_wraps request cause) as (t & m & H).
    { unfold tryParaphrase. now rewrite E. }
    exists t, m. split; [exact H | apply Hall].
Qed.

Lemma noUsableText_firstContent (completion : ChatCompletion) :
  noUsableText completion = true ->
  firstContentTrimmed completion = None
  \/ firstContentTrimmed completion = Some [].
Proof.
  unfold noUsableText, firstContentTrimmed.
  destruct (choices completion) as [|c rest]; [now left|].
  destruct (choice_message c) as [m|]; [|now left].
  destruct (message_content m) as [[|u text]|];
    [now right | discriminate | now left].
Qed.

(** C3 (as the code has it). When the endpoint answers but the completion
    has no usable text, [paraphrase] throws an [AppError] of type
    [UNKNOWN_ERROR] whose [details] is the [Error] "No paraphrase generated
    from the API"; and a response that [paraphrase] returns never has an
    empty [paraphrased] text. *)
Theorem paraphrase_no_content (request : ParaphraseRequest) :
  (forall completion : ChatCompletion,
      create (createParams config request) = Return completion ->
      noUsableText completion = true ->
      outcome (paraphrase config create now request)
      = Throw (VAppError UNKNOWN_ERROR
                 (lit "An unexpected error occurred while calling OpenAI API")
                 (VError (lit "No paraphrase generated from the API"))))
  /\ (forall response : ParaphraseResponse,
        outcome (paraphrase config create now request) = Return response ->
        paraphrased response <> []).
Proof.
  split.
  - intros completion E H.
    unfold paraphrase, tryParaphrase. cbn [outcome]. rewrite E.
    destruct (noUsableText_firstContent completion H) as [-> | ->];
      reflexivity.
  - intros response. unfold paraphrase, tryParaphrase. cbn [outcome].
    destruct (create (createParams config request)) as [completion|cause].
    + destruct (firstContentTrimmed completion) as [[|c text]|].
      * discriminate.
      * intros [= <-]. discriminate.
      * discriminate.
    + destruct (handleOpenAIError_throws cause) as (t & m & ->).
      discriminate.
Qed.

(** C5 (as the code has it). When the endpoint answers with a first
    candidate whose text [c] is not empty after trimming and reports a
    total token usage [u], [paraphrase] returns the response made of the
    request's description, the trimmed [c], the clock reading and [u]. *)
Theorem paraphrase_success (request : ParaphraseRequest)
        (completion : ChatCompletion) (c : jsstring) (u : Z)
        (rest : list Choice) :
  create (createParams config request) = Return completion ->
  choices completion
  = {| choice_message := Some {| message_content := Some c |} |} :: rest ->
  usage completion = Some {| total_tokens := u |} ->
  trim c <> [] ->
  paraphrase config create now request
  = mkRun [createParams config request]
      (Return {| original := description request;
                 paraphrased := trim c;
                 timestamp := now;
                 tokensUsed := Some u |}).
Proof.
  intros E Hc Hu Hne.
  unfold paraphrase, tryParaphrase, firstContentTrimmed.
  rewrite E, Hc, Hu. cbn.
  destruct (trim c) as [|x text]; [congruence | reflexivity].
Qed.

End ServiceFacts.

Lemma paraphrase_no_content_witness :
  Sample.emptyStub (createParams Sample.config Sample.walletRequest)
  = Return {| choices := []; usage := Some {| total_tokens := 12 |} |}
  /\ noUsableText {| choices := []; usage := Some {| total_tokens := 12 |} |}
     = true
  /\ outcome (paraphrase Sample.config Sample.emptyStub 0 Sample.walletRequest)
     = Throw (VAppError UNKNOWN_ERROR
                (lit "An unexpected error occurred while calling OpenAI API")
                (VError (lit "No paraphrase generated from the API"))).
Proof.
  split; [reflexivity|]. split; [reflexivity|].
  apply (proj1 (paraphrase_no_content Sample.config Sample.emptyStub 0
                  Sample.walletRequest)
           {| choices := []; usage := Some {| total_tokens := 12 |} |});
    reflexivity.
Defined.

(** C3 as stated fails: with an empty candidate list the error that reaches
    the caller is tagged [UNKNOWN_ERROR], not [API_ERROR]. *)
Lemma paraphrase_no_content_not_API_ERROR :
  noUsableText {| choices := []; usage := Some {| total_tokens := 12 |} |}
  = true
  /\ thrownType (outcome (paraphrase Sample.config Sample.emptyStub 0
                           Sample.walletRequest))
     = Some UNKNOWN_ERROR
  /\ thrownType (outcome (paraphrase Sample.config Sample.emptyStub 0
                           Sample.walletRequest))
     <> Some API_ERROR.
Proof.
  split; [reflexivity|]. split; [reflexivity | discriminate].
Qed.

(** The end-to-end example: the wallet description and an endpoint that
    answers with a shorter rewrite and 89 tokens. *)
Lemma paraphrase_success_witness :
  trim Sample.walletRewrite <> []
  /\ paraphrase Sample.config Sample.rewriteStub 1700000000000
       Sample.walletRequest
     = mkRun [createParams Sample.config Sample.walletRequest]
         (Return {| original := Sample.walletDescription;
                    paraphrased := Sample.walletRewrite;
                    timestamp := 1700000000000;
                    tokensUsed := Some 89%Z |}).
Proof.
  assert (Hne : trim Sample.walletRewrite <> []) by (vm_compute; discriminate).
  split; [exact Hne|].
  exact (paraphrase_success Sample.config Sample.rewriteStub 1700000000000
           Sample.walletRequest
           (Sample.completionWith (Some Sample.walletRewrite) 89)
           Sample.walletRewrite 89 [] eq_refl eq_refl eq_refl Hne).
Defined.

(** C5 as stated fails: a first candidate whose text is one space is not
    empty, yet [paraphrase] does not return a response for it. *)
Lemma paraphrase_blank_candidate_fails :
  Sample.blankStub (createParams Sample.config Sample.walletRequest)
  = Return (Sample.completionWith (Some [32%N]) 89)
  /\ [32%N] <> ([] : jsstring)
  /\ returned (outcome (paraphrase Sample.config Sample.blankStub 0
                         Sample.walletRequest)) = false
  /\ ~ (exists response : ParaphraseResponse,
          outcome (paraphrase Sample.config Sample.blankStub 0
                     Sample.walletRequest) = Return response).
Proof.
  split; [reflexivity|]. split; [discriminate|]. split; [reflexivity|].
  intros [response H]. vm_compute in H. discriminate H.
Qed.

(** ** src/services/paraphrase.service.ts: the prompt builder *)

(** C6 (as the code has it). With a hint, the prompt is the fixed
    instruction, then exactly one of the three length clauses (the one of
    the hint), then the closing sentence; without a hint no length clause is
    added at all. *)
Theorem generateSystemPrompt_clauses :
  generateSystemPrompt (Some SHORT)
  = baseInstruction ++ shortClause ++ closingSentence
  /\ generateSystemPrompt (Some MEDIUM)
     = baseInstruction ++ mediumClause ++ closingSentence
  /\ generateSystemPrompt (Some LONG)
     = baseInstruction ++ longClause ++ closingSentence
  /\ clausesIn (generateSystemPrompt (Some SHORT)) = [shortClause]
  /\ clausesIn (generateSystemPrompt (Some MEDIUM)) = [mediumClause]
  /\ clausesIn (generateSystemPrompt (Some LONG)) = [longClause]
  /\ generateSystemPrompt None = baseInstruction ++ closingSentence
  /\ clausesIn (generateSystemPrompt None) = [].
Proof.
  repeat split; vm_compute; reflexivity.
Qed.

(** C6 as stated fails: without a hint the prompt is not the same-length
    prompt, and the same-length clause does not occur in it. *)
Lemma generateSystemPrompt_no_hint_not_medium :
  generateSystemPrompt None <> generateSystemPrompt (Some MEDIUM)
  /\ includes (generateSystemPrompt None) mediumClause = false.
Proof.
  split; [apply eqb_neq | ]; vm_compute; reflexivity.
Qed.

(** C7. The two messages are a function of the request; the system message
    is the same for requests with the same hint, whatever their
    descriptions; and over the four possible hints (none, short, medium,
    long) the system message takes four pairwise different values. *)
Theorem buildMessages_pure :
  (forall r1 r2 : ParaphraseRequest,
      description r1 = description r2 ->
      targetLength r1 = targetLength r2 ->
      buildMessages r1 = buildMessages r2)
  /\ (forall r1 r2 : ParaphraseRequest,
        targetLength r1 = targetLength r2 ->
        systemMessages (buildMessages r1) = systemMessages (buildMessages r2))
  /\ (forall r : ParaphraseRequest,
        systemMessages (buildMessages r)
        = [generateSystemPrompt (targetLength r)]
        /\ userMessages (buildMessages r)
           = [generateUserPrompt (description r)])
  /\ NoDup (List.map generateSystemPrompt allHints)
  /\ (forall hint : option TargetLength,
        In (generateSystemPrompt hint) (List.map generateSystemPrompt allHints)).
Proof.
  split.
  { intros [d1 t1] [d2 t2]. simpl. intros -> ->. reflexivity. }
  split.
  { intros [d1 t1] [d2 t2]. simpl. intros ->. reflexivity. }
  split.
  { intros r. split; reflexivity. }
  split.
  { assert (Hneq : forall a b : jsstring, eqb a b = false -> a <> b)
      by (intros a b; apply eqb_neq).
    unfold allHints. cbn [List.map].
    repeat constructor; cbn [In]; intros H;
      repeat (destruct H as [H | H];
              [revert H; apply Hneq; vm_compute; reflexivity|]);
      exact H. }
  intros hint. apply in_map. unfold allHints.
  destruct hint as [[]|]; simpl; tauto.
Qed.

Lemma buildMessages_pure_witness :
  targetLength {| description := Sample.walletDescription;
                  targetLength := Some SHORT |}
  = targetLength {| description := lit "Another product entirely.";
                    targetLength := Some SHORT |}
  /\ systemMessages
       (buildMessages {| description := Sample.walletDescription;
                         targetLength := Some SHORT |})
     = systemMessages
         (buildMessages {| description := lit "Another product entirely.";
                           targetLength := Some SHORT |}).
Proof.
  split; [reflexivity|].
  apply (proj1 (proj2 buildMessages_pure)). reflexivity.
Defined.

(** ** src/services/paraphrase.service.ts: the similarity helper *)

(** [split] always yields at least one piece. *)
Lemma splitAux_nonempty (inRun : bool) (cur s : jsstring) :
  1 <= length (splitAux inRun cur s).
Proof.
  revert inRun cur. induction s as [|c s IH]; intros inRun cur; simpl.
  - lia.
  - destruct (isWhiteSpace c); [destruct inRun|]; simpl;
      try apply IH. lia.
Qed.

Lemma splitWhiteSpace_nonempty (s : jsstring) :
  1 <= length (splitWhiteSpace s).
Proof. apply splitAux_nonempty. Qed.

Lemma arrayIncludes_In (arr : list jsstring) (w : jsstring) :
  arrayIncludes arr w = true <-> In w arr.
Proof.
  unfold arrayIncludes. rewrite existsb_exists. split.
  - intros (x & Hx & E). apply eqb_eq in E. now subst.
  - intros H. exists w. split; [exact H | apply eqb_refl].
Qed.

Lemma filter_all {A} (f : A -> bool) (l : list A) :
  (forall x, In x l -> f x = true) -> filter f l = l.
Proof.
  induction l as [|a l IH]; simpl; intros H; [reflexivity|].
  rewrite (H a (or_introl eq_refl)). f_equal. apply IH. auto.
Qed.

Section SimilarityFacts.

Variable toLowerCase : jsstring -> jsstring.

Lemma largerCount_pos (o p : jsstring) : 1 <= largerCount toLowerCase o p.
Proof.
  unfold largerCount, originalWords.
  pose proof (splitWhiteSpace_nonempty (toLowerCase o)). lia.
Qed.

(** The comparison with 0.7 in terms of the two counts. *)
Lemma similarity_below (o p : jsstring) :
  negb (Qle_bool (7 # 10)%Q (similarity toLowerCase o p)) = true
  <-> 10 * commonCount toLowerCase o p < 7 * largerCount toLowerCase o p.
Proof.
  unfold similarity, Qle_bool. cbn [Qnum Qden].
  pose proof (largerCount_pos o p) as Hpos.
  assert (Hden : Zpos (Pos.of_nat (largerCount toLowerCase o p))
                 = Z.of_nat (largerCount toLowerCase o p)).
  { rewrite <- positive_nat_Z, Nat2Pos.id by lia. reflexivity. }
  rewrite Hden, negb_true_iff, Z.leb_gt. lia.
Qed.

(** Texts with the same lower-casing share every word. *)
Lemma identical_not_below (o p : jsstring) :
  toLowerCase o = toLowerCase p ->
  ~ 10 * commonCount toLowerCase o p < 7 * largerCount toLowerCase o p.
Proof.
  intros E. unfold commonCount, largerCount, commonWords, paraphrasedWords,
    originalWords. rewrite E.
  rewrite filter_all by (intros x Hx; now apply arrayIncludes_In).
  pose proof (splitWhiteSpace_nonempty (toLowerCase p)). lia.
Qed.

(** C2 (as the code has it). The helper returns true exactly when the two
    texts differ after lower-casing and ten times the number of words of
    the original that occur in the paraphrase is below seven times the
    larger word count; the first condition follows from the second.  With
    a lower-casing that is the ASCII one on ASCII text, the two examples
    of the specification give false and true. *)
Theorem isSignificantlyDifferent_spec :
  (forall s : jsstring, isAscii s = true -> toLowerCase s = asciiLower s) ->
  (forall original paraphrased : jsstring,
      (isSignificantlyDifferent toLowerCase original paraphrased = true
       <-> toLowerCase original <> toLowerCase paraphrased
           /\ 10 * commonCount toLowerCase original paraphrased
              < 7 * largerCount toLowerCase original paraphrased)
      /\ (isSignificantlyDifferent toLowerCase original paraphrased = true
          <-> 10 * commonCount toLowerCase original paraphrased
              < 7 * largerCount toLowerCase original paraphrased))
  /\ isSignificantlyDifferent toLowerCase
       (lit "A red shirt") (lit "A red shirt") = false
  /\ isSignificantlyDifferent toLowerCase
       (lit "A red large cotton shirt") (lit "Blue denim pants") = true.
Proof.
  intros Hascii. split; [|split].
  - intros o p.
    unfold isSignificantlyDifferent.
    destruct (eqb (toLowerCase o) (toLowerCase p)) eqn:E.
    + apply eqb_eq in E. pose proof (identical_not_below o p E) as Hn.
      split; split; intros H; try discriminate; tauto.
    + apply eqb_neq in E. rewrite similarity_below. tauto.
  - unfold isSignificantlyDifferent. now rewrite eqb_refl.
  - unfold isSignificantlyDifferent, similarity, commonCount, largerCount,
      commonWords, originalWords, paraphrasedWords.
    rewrite !Hascii by reflexivity.
    vm_compute. reflexivity.
Qed.

End SimilarityFacts.

Lemma isSignificantlyDifferent_spec_witness :
  isSignificantlyDifferent asciiLower (lit "A red shirt") (lit "A red shirt")
  = false
  /\ isSignificantlyDifferent asciiLower
       (lit "A red large cotton shirt") (lit "Blue denim pants") = true
  /\ (isSignificantlyDifferent asciiLower (lit "a b c d") (lit "a b c e") = true
      <-> 10 * commonCount asciiLower (lit "a b c d") (lit "a b c e")
          < 7 * largerCount asciiLower (lit "a b c d") (lit "a b c e")).
Proof.
  destruct (isSignificantlyDifferent_spec asciiLower (fun s _ => eq_refl))
    as (Hiff & Hsame & Hother).
  split; [exact Hsame|]. split; [exact Hother|].
  exact (proj2 (Hiff (lit "a b c d") (lit "a b c e"))).
Defined.

(** C2 as stated fails.  "a b c d" and "a b c e" are not identical, so the
    reading of the specification gives true, but the helper returns false
    (three of four words are shared).  For "a a a b" and "a c d e" one word
    of the paraphrase occurs in the original (overlap 1/4), while the helper
    counts the three words of the original that occur in the paraphrase
    (3/4) and returns false. *)
Lemma isSignificantlyDifferent_differs_from_claim :
  (asciiLower (lit "a b c d") <> asciiLower (lit "a b c e")
   /\ claimedSignificantlyDifferent asciiLower (lit "a b c d") (lit "a b c e")
      = true
   /\ isSignificantlyDifferent asciiLower (lit "a b c d") (lit "a b c e")
      = false)
  /\ (Qeq_bool (claimedOverlap asciiLower (lit "a a a b") (lit "a c d e"))
               (1 # 4)%Q = true
      /\ Qeq_bool (similarity asciiLower (lit "a a a b") (lit "a c d e"))
                  (3 # 4)%Q = true
      /\ isSignificantlyDifferent asciiLower (lit "a a a b") (lit "a c d e")
         = false).
Proof.
  split; (split; [|split]); try (vm_compute; reflexivity).
  apply eqb_neq. vm_compute. reflexivity.
Qed.

(* ================================================================== *)
(** * Further properties of the code *)
(* ================================================================== *)

(** ** Strings, continued *)

Lemma trimStart_suffix (s : jsstring) :
  exists pre : jsstring, s = pre ++ trimStart s.
Proof.
  induction s as [|c s [pre IH]]; simpl.
  - now exists [].
  - destruct (isWhiteSpace c).
    + exists (c :: pre). simpl. now f_equal.
    + now exists [].
Qed.

(** What [trim] returns is a contiguous part of its argument. *)
Lemma trim_segment (s : jsstring) :
  exists pre post : jsstring, s = pre ++ trim s ++ post.
Proof.
  unfold trim, trimEnd.
  destruct (trimStart_suffix s) as [pre Hpre].
  destruct (trimStart_suffix (rev (trimStart s))) as [post Hpost].
  exists pre, (rev post).
  rewrite <- rev_app_distr, <- Hpost, rev_involutive. exact Hpre.
Qed.

Lemma trim_idempotent (s : jsstring) : trim (trim s) = trim s.
Proof.
  apply trim_fixed; [apply trim_no_leading | apply trim_no_trailing].
Qed.

Lemma startsWith_spec (s p : jsstring) :
  startsWith s p = true <-> exists rest : jsstring, s = p ++ rest.
Proof.
  revert s. induction p as [|a p IH]; intros s.
  - split; [intros _; now exists s | intros _; now destruct s].
  - destruct s as [|b s]; cbn [startsWith].
    + split; [discriminate | intros [rest H]; discriminate].
    + rewrite andb_true_iff, N.eqb_eq, IH. split.
      * intros [-> [rest ->]]. now exists rest.
      * intros [rest [= -> ->]]. split; [reflexivity | now exists rest].
Qed.

(** [includes] finds exactly the contiguous occurrences. *)
Lemma includes_spec (s p : jsstring) :
  includes s p = true <-> exists pre post : jsstring, s = pre ++ p ++ post.
Proof.
  induction s as [|c s IH].
  - cbn [includes]. rewrite orb_false_r, startsWith_spec. split.
    + intros [rest H]. now exists [], rest.
    + intros (pre & post & H). destruct pre; [now exists post|discriminate].
  - cbn [includes]. rewrite orb_true_iff, startsWith_spec, IH. split.
    + intros [[rest H] | (pre & post & H)].
      * now exists [], rest.
      * exists (c :: pre), post. simpl. now f_equal.
    + intros (pre & post & H). destruct pre as [|x pre].
      * left. now exists post.
      * right. injection H as _ H. now exists pre, post.
Qed.

Lemma includes_segment (s pre post p : jsstring) :
  includes (pre ++ s ++ post) p = false -> includes s p = false.
Proof.
  intros H. destruct (includes s p) eqn:E; [|reflexivity].
  apply includes_spec in E. destruct E as (a & b & ->).
  assert (includes (pre ++ (a ++ p ++ b) ++ post) p = true) as H'.
  { apply includes_spec. exists (pre ++ a), (b ++ post).
    now rewrite <- !app_assoc. }
  congruence.
Qed.

Lemma unescapeNewlines_head (c : code_unit) (s : jsstring) :
  exists (h : code_unit) (t : jsstring),
    unescapeNewlines (c :: s) = h :: t /\ (h = 10%N \/ h = c).
Proof.
  destruct s as [|d s].
  - exists c, []. now split; [|right].
  - rewrite unescapeNewlines_step.
    destruct ((c =? 92) && (d =? 110))%N; eexists _, _;
      (split; [reflexivity|]); [now left | now right].
Qed.

(** After the un-escaping no backslash is directly followed by 'n'. *)
Lemma unescapeNewlines_complete (s : jsstring) :
  includes (unescapeNewlines s) escapedNewline = false.
Proof.
  remember (length s) as n eqn:Hn.
  revert s Hn. induction n as [n IH] using lt_wf_ind. intros s Hn.
  destruct s as [|c [|d s]].
  - reflexivity.
  - simpl. now rewrite andb_false_r.
  - rewrite unescapeNewlines_step.
    destruct ((c =? 92) && (d =? 110))%N eqn:E.
    + cbn [includes startsWith escapedNewline]. simpl N.eqb.
      apply (IH (length s)); [simpl in Hn; lia | reflexivity].
    + cbn [includes]. rewrite (IH (length (d :: s)));
        [|simpl in *; lia | reflexivity].
      rewrite orb_false_r.
      destruct (unescapeNewlines_head d s) as (h & t & -> & Hh).
      unfold escapedNewline. cbn [startsWith].
      destruct (N.eqb_spec 92 c) as [<-|]; [|reflexivity].
      destruct (N.eqb_spec 110 h) as [<-|]; [|reflexivity].
      destruct Hh as [Hh | <-]; [discriminate|].
      discriminate E.
Qed.

Lemma startsWith_nil (s : jsstring) : startsWith s [] = true.
Proof. now destruct s. Qed.

Lemma unescapeNewlines_fixed (s : jsstring) :
  includes s escapedNewline = false -> unescapeNewlines s = s.
Proof.
  induction s as [|c s IH]; [reflexivity|].
  cbn [includes]. rewrite orb_false_iff. intros [Hs Hi].
  destruct s as [|d s]; [reflexivity|].
  rewrite unescapeNewlines_step.
  unfold escapedNewline in Hs. cbn [startsWith] in Hs.
  rewrite startsWith_nil, andb_true_r in Hs.
  rewrite (N.eqb_sym c 92), (N.eqb_sym d 110), Hs.
  f_equal. now apply IH.
Qed.

Lemma unescapeNewlines_length (s : jsstring) :
  length (unescapeNewlines s) <= length s.
Proof.
  remember (length s) as n eqn:Hn.
  revert s Hn. induction n as [n IH] using lt_wf_ind. intros s Hn.
  destruct s as [|c [|d s]]; subst n.
  - simpl. lia.
  - simpl. lia.
  - rewrite unescapeNewlines_step.
    destruct ((c =? 92) && (d =? 110))%N; cbn [length].
    + specialize (IH (length s)). cbn [length] in IH.
      specialize (IH ltac:(lia) s eq_refl). lia.
    + specialize (IH (length (d :: s))). cbn [length] in IH.
      specialize (IH ltac:(lia) (d :: s) eq_refl). cbn [length] in IH. lia.
Qed.

Lemma removeAngles_length (s : jsstring) :
  length (removeAngles s) <= length s.
Proof.
  unfold removeAngles. induction s as [|c s IH]; simpl; [lia|].
  destruct (isAngle c); simpl; lia.
Qed.

Lemma sanitizeInput_no_angle (input : jsstring) (x : code_unit) :
  In x (sanitizeInput input) -> isAngle x = false.
Proof.
  unfold sanitizeInput. intros H.
  apply trim_incl, unescapeNewlines_incl in H.
  destruct H as [-> | H]; [reflexivity|].
  now apply removeAngles_spec in H.
Qed.

(** ** src/utils/validation.ts, continued *)

(** X1. Sanitizing is idempotent: a sanitized string is left unchanged by a
    second pass. *)
Theorem sanitizeInput_idempotent (input : jsstring) :
  sanitizeInput (sanitizeInput input) = sanitizeInput input.
Proof.
  assert (Hang : removeAngles (sanitizeInput input) = sanitizeInput input).
  { unfold removeAngles. apply filter_all. intros x Hx.
    now rewrite (sanitizeInput_no_angle input x Hx). }
  assert (Hesc : unescapeNewlines (sanitizeInput input) = sanitizeInput input).
  { apply unescapeNewlines_fixed. unfold sanitizeInput.
    destruct (trim_segment (unescapeNewlines (removeAngles input)))
      as (pre & post & Hseg).
    apply (includes_segment _ pre post).
    rewrite <- Hseg. apply unescapeNewlines_complete. }
  unfold sanitizeInput at 1. rewrite Hang, Hesc.
  apply sanitizeInput_trimmed.
Qed.

(** X2. Sanitizing never makes the text longer. *)
Theorem sanitizeInput_length (input : jsstring) :
  length (sanitizeInput input) <= length input.
Proof.
  unfold sanitizeInput.
  pose proof (trim_length (unescapeNewlines (removeAngles input))).
  pose proof (unescapeNewlines_length (removeAngles input)).
  pose proof (removeAngles_length input). lia.
Qed.

Lemma trimStart_nil_iff (s : jsstring) :
  trimStart s = [] <-> forallb isWhiteSpace s = true.
Proof.
  induction s as [|c s IH]; simpl; [tauto|].
  destruct (isWhiteSpace c); simpl; [exact IH|].
  split; discriminate.
Qed.

Lemma trim_nil_iff (s : jsstring) :
  trim s = [] <-> forallb isWhiteSpace s = true.
Proof.
  rewrite <- trimStart_nil_iff. unfold trim, trimEnd. split.
  - intros H. apply (f_equal (@rev code_unit)) in H.
    rewrite rev_involutive in H. simpl in H.
    pose proof (trimStart_head s) as Hh.
    destruct (trimStart s) as [|c t]; [reflexivity|].
    simpl in Hh. simpl rev in H.
    rewrite (trimStart_snoc (rev t) c Hh) in H.
    now destruct (trimStart (rev t)).
  - intros ->. reflexivity.
Qed.

(** X3. [isEmptyOrWhitespace] holds exactly for the strings all of whose
    code units are white space (the empty string among them). *)
Theorem isEmptyOrWhitespace_spec (str : jsstring) :
  isEmptyOrWhitespace str = true <-> forallb isWhiteSpace str = true.
Proof.
  unfold isEmptyOrWhitespace. rewrite <- trim_nil_iff, Nat.eqb_eq.
  destruct (trim str); simpl; split; congruence.
Qed.

Section ValidationMore.

Variable zodMessage : list ZodIssue -> jsstring.

Lemma validateDescription_returns_inv (s d : jsstring) :
  validateDescription zodMessage s = Return d ->
  MIN_DESCRIPTION_LENGTH <= length s <= MAX_DESCRIPTION_LENGTH
  /\ d = trim s.
Proof.
  intros H.
  destruct (le_lt_dec MIN_DESCRIPTION_LENGTH (length s)) as [Hlo|Hlo];
    [destruct (le_lt_dec (length s) MAX_DESCRIPTION_LENGTH) as [Hhi|Hhi]|].
  - rewrite validateDescription_accepts in H by lia.
    injection H as <-. split; [lia | reflexivity].
  - destruct (validateDescription_rejects zodMessage s (or_intror Hhi))
      as [Ht _]. rewrite H in Ht. discriminate.
  - destruct (validateDescription_rejects zodMessage s (or_introl Hlo))
      as [Ht _]. rewrite H in Ht. discriminate.
Qed.

(** X4. White space counts towards the length: a string of 10 to 5000
    white-space code units is accepted, and what is returned for it is the
    empty string. *)
Theorem validateDescription_blank (s : jsstring) :
  isEmptyOrWhitespace s = true ->
  MIN_DESCRIPTION_LENGTH <= length s <= MAX_DESCRIPTION_LENGTH ->
  validateDescription zodMessage s = Return [].
Proof.
  intros Hblank Hlen.
  rewrite validateDescription_accepts by exact Hlen.
  unfold isEmptyOrWhitespace in Hblank. apply Nat.eqb_eq in Hblank.
  now destruct (trim s).
Qed.

(** X5. Whatever [validateDescription] returns is the trimmed argument: it
    has at most 5000 code units and no white space at either end. *)
Theorem validateDescription_result (s d : jsstring) :
  validateDescription zodMessage s = Return d ->
  d = trim s
  /\ length d <= MAX_DESCRIPTION_LENGTH
  /\ startsWithWhiteSpace d = false
  /\ endsWithWhiteSpace d = false.
Proof.
  intros H. apply validateDescription_returns_inv in H.
  destruct H as [[_ Hhi] ->].
  split; [reflexivity|]. split.
  - pose proof (trim_length s). lia.
  - split; [apply trim_no_leading | apply trim_no_trailing].
Qed.

(** X6. The message of the validation error names the violated bound:
    "at least 10 characters" for a string shorter than 10 code units,
    "at most 5000 characters" for one longer than 5000. *)
Theorem validateDescription_message (s : jsstring) :
  (length s < MIN_DESCRIPTION_LENGTH ->
   thrownMessage (validateDescription zodMessage s)
   = Some (lit "Invalid description: Description must be at least 10 characters"))
  /\ (MAX_DESCRIPTION_LENGTH < length s ->
      thrownMessage (validateDescription zodMessage s)
      = Some (lit "Invalid description: Description must be at most 5000 characters")).
Proof.
  unfold validateDescription, Zod.parseString, descriptionSchema.
  cbn [Zod.runChecks].
  split; intros H;
    destruct (Nat.ltb_spec (length s) MIN_DESCRIPTION_LENGTH);
    destruct (Nat.ltb_spec MAX_DESCRIPTION_LENGTH (length s));
    try (unfold MIN_DESCRIPTION_LENGTH, MAX_DESCRIPTION_LENGTH in *; lia);
    vm_compute; reflexivity.
Qed.

Lemma promptForDescription_accepted_inv (lines : list jsstring)
      (d : jsstring) :
  promptForDescription zodMessage lines = Return d ->
  d = sanitizeInput (join [10%N] lines)
  /\ MIN_DESCRIPTION_LENGTH <= length d <= MAX_DESCRIPTION_LENGTH
  /\ ~ In 60%N d /\ ~ In 62%N d
  /\ startsWithWhiteSpace d = false
  /\ endsWithWhiteSpace d = false.
Proof.
  unfold promptForDescription. intros H.
  apply validateDescription_returns_inv in H. destruct H as [Hlen ->].
  rewrite sanitizeInput_trimmed.
  split; [reflexivity|]. split; [exact Hlen|].
  split; [|split].
  - intros Hin. now apply sanitizeInput_no_angle in Hin.
  - intros Hin. now apply sanitizeInput_no_angle in Hin.
  - unfold sanitizeInput.
    split; [apply trim_no_leading | apply trim_no_trailing].
Qed.

(** X7. A description accepted at the prompt is the sanitized text of the
    typed lines; it has between 10 and 5000 code units, no angle bracket
    and no white space at either end. *)
Theorem promptForDescription_result (lines : list jsstring) (d : jsstring) :
  promptForDescription zodMessage lines = Return d ->
  d = sanitizeInput (join [10%N] lines)
  /\ MIN_DESCRIPTION_LENGTH <= length d <= MAX_DESCRIPTION_LENGTH
  /\ ~ In 60%N d /\ ~ In 62%N d
  /\ startsWithWhiteSpace d = false
  /\ endsWithWhiteSpace d = false.
Proof. exact (promptForDescription_accepted_inv lines d). Qed.

(** X8. The prompt rejects exactly the inputs whose sanitized text is shorter
    than 10 or longer than 5000 code units, with a validation error. *)
Theorem promptForDescription_rejects_iff (lines : list jsstring) :
  thrownType (promptForDescription zodMessage lines) = Some VALIDATION_ERROR
  <-> (length (sanitizeInput (join [10%N] lines)) < MIN_DESCRIPTION_LENGTH
       \/ MAX_DESCRIPTION_LENGTH < length (sanitizeInput (join [10%N] lines))).
Proof.
  unfold promptForDescription. split.
  - intros H.
    destruct (le_lt_dec MIN_DESCRIPTION_LENGTH
                (length (sanitizeInput (join [10%N] lines)))) as [Hlo|Hlo];
      [|now left].
    destruct (le_lt_dec (length (sanitizeInput (join [10%N] lines)))
                MAX_DESCRIPTION_LENGTH) as [Hhi|Hhi]; [|now right].
    rewrite validateDescription_accepts in H by lia. discriminate.
  - intros H. now apply validateDescription_rejects.
Qed.

End ValidationMore.

Lemma validateDescription_blank_witness :
  isEmptyOrWhitespace (repeat 32%N 10) = true
  /\ validateDescription Sample.zodMessage (repeat 32%N 10) = Return [].
Proof.
  split; [reflexivity|].
  apply validateDescription_blank; [reflexivity | vm_compute; lia].
Defined.

Lemma validateDescription_result_witness :
  length (trim (lit "  A sturdy oak table.  ")) <= MAX_DESCRIPTION_LENGTH
  /\ startsWithWhiteSpace (trim (lit "  A sturdy oak table.  ")) = false.
Proof.
  destruct (validateDescription_result Sample.zodMessage
              (lit "  A sturdy oak table.  ")
              (trim (lit "  A sturdy oak table.  ")))
    as (_ & Hlen & Hstart & _).
  - vm_compute. reflexivity.
  - split; assumption.
Defined.

Lemma validateDescription_message_witness :
  thrownMessage (validateDescription Sample.zodMessage (lit "Too short"))
  = Some (lit "Invalid description: Description must be at least 10 characters")
  /\ thrownMessage (validateDescription Sample.zodMessage (repeat 97%N (S MAX_DESCRIPTION_LENGTH)))
     = Some (lit "Invalid description: Description must be at most 5000 characters").
Proof.
  split.
  - apply (proj1 (validateDescription_message Sample.zodMessage
                    (lit "Too short"))).
    vm_compute. lia.
  - apply (proj2 (validateDescription_message Sample.zodMessage
                    (repeat 97%N (S MAX_DESCRIPTION_LENGTH)))).
    rewrite repeat_length. apply Nat.lt_succ_diag_r.
Defined.

Lemma promptForDescription_result_witness :
  MIN_DESCRIPTION_LENGTH
  <= length (sanitizeInput
               (join [10%N] [lit "  <b>Solid oak</b> table,"; lit "seats six.  "]))
  <= MAX_DESCRIPTION_LENGTH
  /\ ~ In 60%N (sanitizeInput
                 (join [10%N] [lit "  <b>Solid oak</b> table,"; lit "seats six.  "])).
Proof.
  destruct (promptForDescription_result Sample.zodMessage
              [lit "  <b>Solid oak</b> table,"; lit "seats six.  "]
              (sanitizeInput
                 (join [10%N]
                    [lit "  <b>Solid oak</b> table,"; lit "seats six.  "])))
    as (_ & Hlen & Hlt & _).
  - vm_compute. reflexivity.
  - split; assumption.
Defined.

(** ** src/cli.ts: reading the description *)

Lemma readLines_done (n : nat) (acc input : list jsstring) :
  2 <= n -> readLines n acc input = Some (acc, input).
Proof.
  intros H. assert (E : (n <? 2) = false) by (apply Nat.ltb_ge; exact H).
  destruct input; simpl; now rewrite E.
Qed.

Lemma readLines_first (acc : list jsstring) (line : jsstring)
      (rest : list jsstring) :
  readLines 0 acc (line :: rest)
  = if eqb line [] then readLines 1 acc rest
    else readLines 0 (acc ++ [line]) rest.
Proof. reflexivity. Qed.

Lemma readLines_second (acc : list jsstring) (line : jsstring)
      (rest : list jsstring) :
  readLines 1 acc (line :: rest)
  = if eqb line [] then Some (acc, rest)
    else readLines 0 (acc ++ [line]) rest.
Proof.
  cbn [readLines Nat.ltb Nat.leb].
  destruct (eqb line []); [|reflexivity].
  now apply readLines_done.
Qed.

Lemma hasTwoEmptyLines_skip (line : jsstring) (rest : list jsstring) :
  eqb line [] = false ->
  hasTwoEmptyLines (line :: rest) = hasTwoEmptyLines rest.
Proof.
  intros H. destruct rest as [|b rest]; [reflexivity|].
  cbn [hasTwoEmptyLines]. now rewrite H.
Qed.

Lemma hasTwoEmptyLines_after_empty (line : jsstring) (rest : list jsstring) :
  eqb line [] = false ->
  hasTwoEmptyLines ([] :: line :: rest) = hasTwoEmptyLines rest.
Proof.
  intros H. rewrite <- (hasTwoEmptyLines_skip line rest H).
  cbn [hasTwoEmptyLines]. now rewrite H, andb_false_r.
Qed.

Lemma filter_nonEmptyLine_keep (line : jsstring) (rest : list jsstring) :
  eqb line [] = false ->
  filter nonEmptyLine (line :: rest) = line :: filter nonEmptyLine rest.
Proof.
  intros H. cbn [filter]. unfold nonEmptyLine at 1. now rewrite H.
Qed.

Lemma filter_nonEmptyLine_drop (rest : list jsstring) :
  filter nonEmptyLine ([] :: rest) = filter nonEmptyLine rest.
Proof. reflexivity. Qed.

Lemma readLines_collects_from (input acc lines rest : list jsstring) :
  readLines 0 acc input = Some (lines, rest) ->
  exists body : list jsstring,
    input = body ++ [[]; []] ++ rest
    /\ lines = acc ++ filter nonEmptyLine body
    /\ hasTwoEmptyLines (body ++ [[]]) = false.
Proof.
  remember (length input) as n eqn:Hn.
  revert input acc Hn. induction n as [n IH] using lt_wf_ind.
  intros input acc Hn H.
  destruct input as [|a input]; [discriminate H|].
  rewrite readLines_first in H.
  destruct (eqb a []) eqn:Ea.
  - apply eqb_eq in Ea. subst a.
    destruct input as [|b input]; [discriminate H|].
    rewrite readLines_second in H.
    destruct (eqb b []) eqn:Eb.
    + apply eqb_eq in Eb. subst b. injection H as <- <-.
      exists []. simpl. now rewrite app_nil_r.
    + apply (IH (length input)) in H; [|simpl in Hn; lia | reflexivity].
      destruct H as (body & -> & -> & Hno).
      exists ([] :: b :: body). split; [reflexivity|]. split.
      * rewrite filter_nonEmptyLine_drop, filter_nonEmptyLine_keep by exact Eb.
        now rewrite <- app_assoc.
      * cbn [app]. now rewrite hasTwoEmptyLines_after_empty.
  - apply (IH (length input)) in H; [|simpl in Hn; lia | reflexivity].
    destruct H as (body & -> & -> & Hno).
    exists (a :: body). split; [reflexivity|]. split.
    + rewrite filter_nonEmptyLine_keep by exact Ea.
      now rewrite <- app_assoc.
    + cbn [app]. now rewrite hasTwoEmptyLines_skip.
Qed.

(** X9. When the reading loop finishes, what it read is some lines without
    two empty ones in a row, followed by two empty lines; the collected lines
    are the non-empty ones among the former, in order, so a single blank line
    inside the description is dropped. *)
Theorem readLines_collects (input lines rest : list jsstring) :
  readLines 0 [] input = Some (lines, rest) ->
  exists body : list jsstring,
    input = body ++ [[]; []] ++ rest
    /\ lines = filter nonEmptyLine body
    /\ hasTwoEmptyLines (body ++ [[]]) = false
    /\ Forall (fun line => line <> []) lines.
Proof.
  intros H. apply readLines_collects_from in H.
  destruct H as (body & Hin & Hl & Hno).
  exists body. repeat split; try assumption.
  subst lines. apply Forall_forall. intros x Hx.
  apply filter_In in Hx. destruct Hx as [_ Hx].
  unfold nonEmptyLine in Hx. apply negb_true_iff, eqb_neq in Hx. exact Hx.
Qed.

Lemma readLines_collects_witness :
  exists body : list jsstring,
    [lit "Solid oak table."; []; lit "Seats six."; []; []; lit "next"]
    = body ++ [[]; []] ++ [lit "next"]
    /\ [lit "Solid oak table."; lit "Seats six."] = filter nonEmptyLine body
    /\ hasTwoEmptyLines (body ++ [[]]) = false
    /\ Forall (fun line => line <> [])
              [lit "Solid oak table."; lit "Seats six."].
Proof.
  apply (readLines_collects
           [lit "Solid oak table."; []; lit "Seats six."; []; []; lit "next"]).
  reflexivity.
Defined.

(** X10. The reading loop is still waiting for input when the lines typed so
    far run out exactly if no two consecutive lines among them are empty. *)
Theorem readLines_waits_iff (input : list jsstring) :
  readLines 0 [] input = None <-> hasTwoEmptyLines input = false.
Proof.
  generalize (@nil jsstring) as acc.
  remember (length input) as n eqn:Hn.
  revert input Hn. induction n as [n IH] using lt_wf_ind.
  intros input Hn acc.
  destruct input as [|a input]; [simpl; tauto|].
  rewrite readLines_first.
  destruct (eqb a []) eqn:Ea.
  - apply eqb_eq in Ea. subst a.
    destruct input as [|b input]; [simpl; tauto|].
    rewrite readLines_second.
    destruct (eqb b []) eqn:Eb.
    + apply eqb_eq in Eb. subst b. cbn [hasTwoEmptyLines].
      rewrite eqb_refl. simpl. split; discriminate.
    + rewrite hasTwoEmptyLines_after_empty by exact Eb.
      apply (IH (length input)); [simpl in Hn; lia | reflexivity].
  - rewrite hasTwoEmptyLines_skip by exact Ea.
    apply (IH (length input)); [simpl in Hn; lia | reflexivity].
Qed.

(** ** src/utils/openai-client.ts, continued *)

Lemma thrownType_inv {A} (c : Completion A) (t : ErrorType) :
  thrownType c = Some t ->
  exists (m : jsstring) (d : JsValue), c = Throw (VAppError t m d).
Proof.
  destruct c as [a|[| | | | |t' m d]]; simpl; try discriminate.
  intros [= ->]. now exists m, d.
Qed.

(** Where each type thrown by [handleOpenAIError] comes from. *)
Lemma handleOpenAIError_types (error : JsValue) :
  (thrownType (handleOpenAIError error) = Some API_KEY_ERROR
   <-> exists m : jsstring, error = VAPIError (Some 401%Z) m)
  /\ (thrownType (handleOpenAIError error) = Some RATE_LIMIT_ERROR
      <-> exists m : jsstring, error = VAPIError (Some 429%Z) m)
  /\ (thrownType (handleOpenAIError error) = Some API_ERROR
      <-> exists (st : option Z) (m : jsstring),
            error = VAPIError st m
            /\ st <> Some 401%Z /\ st <> Some 429%Z)
  /\ thrownType (handleOpenAIError error) <> Some VALIDATION_ERROR.
Proof.
  unfold handleOpenAIError.
  assert (Hother : forall (e : JsValue) (c : bool),
             instanceofAPIError e = false ->
             let r : Completion Empty_set :=
               if c
               then Throw (VAppError NETWORK_ERROR
                      (lit "Unable to connect to OpenAI API. Please check your internet connection.")
                      e)
               else Throw (VAppError UNKNOWN_ERROR
                      (lit "An unexpected error occurred while calling OpenAI API")
                      e) in
             (thrownType r = Some API_KEY_ERROR
              <-> exists m : jsstring, e = VAPIError (Some 401%Z) m)
             /\ (thrownType r = Some RATE_LIMIT_ERROR
                 <-> exists m : jsstring, e = VAPIError (Some 429%Z) m)
             /\ (thrownType r = Some API_ERROR
                 <-> exists (st : option Z) (m : jsstring),
                       e = VAPIError st m
                       /\ st <> Some 401%Z /\ st <> Some 429%Z)
             /\ thrownType r <> Some VALIDATION_ERROR).
  { intros e c He r. subst r.
    destruct c; cbn [thrownType];
      (split; [split; [discriminate | intros [m ->]; discriminate]|]);
      (split; [split; [discriminate | intros [m ->]; discriminate]|]);
      (split; [split; [discriminate
                      | intros (st & m & -> & _); discriminate]
              | discriminate]). }
  destruct error as [| s | m | issues m | st m | t m d];
    try (apply Hother; reflexivity).
  destruct st as [z|]; cbn [statusIs].
  - destruct (Z.eqb_spec z 401) as [->|N1].
    { cbn [thrownType]. repeat split; try discriminate.
      - intros _. now exists m.
      - intros [m' H]. discriminate.
      - intros (st' & m' & [= <- _] & H1 & _). congruence. }
    destruct (Z.eqb_spec z 429) as [->|N2].
    { cbn [thrownType]. repeat split; try discriminate.
      - intros [m' H]. discriminate.
      - intros _. now exists m.
      - intros (st' & m' & [= <- _] & _ & H2). congruence. }
    cbn [thrownType]. repeat split; try discriminate.
    + intros [m' [= -> _]]. congruence.
    + intros [m' [= -> _]]. congruence.
    + intros _. exists (Some z), m. repeat split; congruence.
  - cbn [thrownType]. repeat split; try discriminate.
    + intros [m' H]. discriminate.
    + intros [m' H]. discriminate.
    + intros _. exists None, m. repeat split; discriminate.
Qed.

(** X11. The converse of the classification: [handleOpenAIError] throws
    [API_KEY_ERROR] only for an API error with status 401,
    [RATE_LIMIT_ERROR] only for one with status 429, [API_ERROR] only for an
    API error with another status (or none), and never
    [VALIDATION_ERROR]. *)
Theorem handleOpenAIError_origin (error : JsValue) :
  (thrownType (handleOpenAIError error) = Some API_KEY_ERROR
   <-> exists m : jsstring, error = VAPIError (Some 401%Z) m)
  /\ (thrownType (handleOpenAIError error) = Some RATE_LIMIT_ERROR
      <-> exists m : jsstring, error = VAPIError (Some 429%Z) m)
  /\ (thrownType (handleOpenAIError error) = Some API_ERROR
      <-> exists (st : option Z) (m : jsstring),
            error = VAPIError st m
            /\ st <> Some 401%Z /\ st <> Some 429%Z)
  /\ thrownType (handleOpenAIError error) <> Some VALIDATION_ERROR.
Proof. exact (handleOpenAIError_types error). Qed.

(** ** src/services/paraphrase.service.ts, continued *)

Section ServiceMore.

Variable config : AppConfig.
Variable create : CreateParams -> Completion ChatCompletion.
Variable now : Z.

Lemma paraphrase_outcome_rejected (request : ParaphraseRequest)
      (cause : JsValue) :
  create (createParams config request) = Throw cause ->
  thrownType (outcome (paraphrase config create now request))
  = thrownType (handleOpenAIError cause)
  /\ thrownDetails (outcome (paraphrase config create now request))
     = Some cause.
Proof.
  intros H.
  destruct (paraphrase_rejected config create now request cause H)
    as (t & m & Ht & ->).
  rewrite Ht. split; reflexivity.
Qed.

Lemma paraphrase_outcome_answered (request : ParaphraseRequest)
      (completion : ChatCompletion) :
  create (createParams config request) = Return completion ->
  (exists text : jsstring,
      firstContentTrimmed completion = Some text /\ text <> []
      /\ outcome (paraphrase config create now request)
         = Return {| original := description request;
                     paraphrased := text;
                     timestamp := now;
                     tokensUsed := option_map total_tokens (usage completion) |})
  \/ thrownType (outcome (paraphrase config create now request))
     = Some UNKNOWN_ERROR.
Proof.
  intros H. unfold paraphrase, tryParaphrase. cbn [outcome]. rewrite H.
  destruct (firstContentTrimmed completion) as [[|c text]|].
  - right. reflexivity.
  - left. exists (c :: text). repeat split. discriminate.
  - right. reflexivity.
Qed.

(** X12. [paraphrase] does not validate: whatever the description, it never
    throws [VALIDATION_ERROR]; and it throws [API_KEY_ERROR] exactly when
    the endpoint rejected the request with an API error of status 401. *)
Theorem paraphrase_error_types (request : ParaphraseRequest) :
  thrownType (outcome (paraphrase config create now request))
  <> Some VALIDATION_ERROR
  /\ (thrownType (outcome (paraphrase config create now request))
      = Some API_KEY_ERROR
      <-> exists m : jsstring,
            create (createParams config request)
            = Throw (VAPIError (Some 401%Z) m)).
Proof.
  destruct (create (createParams config request)) as [completion|cause] eqn:E.
  - destruct (paraphrase_outcome_answered request completion E)
      as [(text & _ & _ & ->) | ->]; cbn [thrownType];
      (split; [discriminate|]);
      (split; [discriminate | intros [m H]; discriminate]).
  - destruct (paraphrase_outcome_rejected request cause E) as [-> _].
    destruct (handleOpenAIError_types cause) as (Hkey & _ & _ & Hval).
    split; [exact Hval|]. rewrite Hkey. split.
    + intros [m ->]. now exists m.
    + intros [m [= ->]]. now exists m.
Qed.

(** X13. A response that [paraphrase] returns carries the request's
    description unchanged, a paraphrase that is not empty and has no white
    space at either end, the clock reading, and the token count of the
    completion when there is one. *)
Theorem paraphrase_response (request : ParaphraseRequest)
        (response : ParaphraseResponse) :
  outcome (paraphrase config create now request) = Return response ->
  original response = description request
  /\ paraphrased response <> []
  /\ startsWithWhiteSpace (paraphrased response) = false
  /\ endsWithWhiteSpace (paraphrased response) = false
  /\ timestamp response = now
  /\ exists completion : ChatCompletion,
       create (createParams config request) = Return completion
       /\ tokensUsed response = option_map total_tokens (usage completion).
Proof.
  intros H.
  destruct (create (createParams config request)) as [completion|cause] eqn:E.
  - destruct (paraphrase_outcome_answered request completion E)
      as [(text & Hf & Hne & Hr) | Ht].
    + rewrite Hr in H. injection H as <-. cbn.
      assert (Htrim : exists raw, text = trim raw).
      { unfold firstContentTrimmed in Hf.
        destruct (choices completion) as [|c rest]; [discriminate|].
        destruct (choice_message c) as [m|]; [|discriminate].
        destruct (message_content m) as [raw|]; [|discriminate].
        injection Hf as <-. now exists raw. }
      destruct Htrim as [raw ->].
      repeat split; try assumption.
      * apply trim_no_leading.
      * apply trim_no_trailing.
      * now exists completion.
    + rewrite H in Ht. discriminate.
  - destruct (paraphrase_outcome_rejected request cause E) as [_ Hd].
    rewrite H in Hd. discriminate.
Qed.

End ServiceMore.

Lemma paraphrase_response_witness :
  original {| original := Sample.walletDescription;
              paraphrased := Sample.walletRewrite;
              timestamp := 5;
              tokensUsed := Some 89%Z |}
  = description Sample.walletRequest
  /\ paraphrased {| original := Sample.walletDescription;
                    paraphrased := Sample.walletRewrite;
                    timestamp := 5;
                    tokensUsed := Some 89%Z |} <> [].
Proof.
  destruct (paraphrase_response Sample.config Sample.rewriteStub 5
              Sample.walletRequest
              {| original := Sample.walletDescription;
                 paraphrased := Sample.walletRewrite;
                 timestamp := 5;
                 tokensUsed := Some 89%Z |})
    as (Ho & Hne & _).
  - vm_compute. reflexivity.
  - split; assumption.
Defined.

Lemma generateSystemPrompt_injective (h1 h2 : option TargetLength) :
  generateSystemPrompt h1 = generateSystemPrompt h2 -> h1 = h2.
Proof.
  destruct h1 as [[]|], h2 as [[]|]; try reflexivity;
    intros H; exfalso; revert H; apply eqb_neq; vm_compute; reflexivity.
Qed.

(** X14. The two messages determine the request: requests with the same
    messages have the same description and the same hint. *)
Theorem buildMessages_injective (r1 r2 : ParaphraseRequest) :
  buildMessages r1 = buildMessages r2 -> r1 = r2.
Proof.
  destruct r1 as [d1 h1], r2 as [d2 h2]. unfold buildMessages. cbn.
  intros [= Hs Hu].
  apply generateSystemPrompt_injective in Hs. now subst.
Qed.

Lemma buildMessages_injective_witness :
  {| description := Sample.walletDescription; targetLength := None |}
  = Sample.walletRequest.
Proof.
  apply buildMessages_injective. reflexivity.
Defined.

(** ** src/index.ts: error display and the interactive loop *)

(** The four things [handleError] can show for an error of the service. *)
Lemma handleError_of_service (error : JsValue) :
  exists v : JsValue,
    handleOpenAIError error = Throw v
    /\ In (handleError v)
          [ [ DisplayError (lit "API key error: Invalid OpenAI API key. Please check your configuration.");
              DisplayError (lit "Please check your OPENAI_API_KEY in the .env file") ];
            [ DisplayError (lit "Rate limit exceeded. Please wait a moment and try again.") ];
            [ DisplayError (lit "Network error. Please check your internet connection.") ];
            [ DisplayError (lit "An unexpected error occurred. Please try again.") ] ]
    /\ (isFatalError v = true
        <-> exists m : jsstring, error = VAPIError (Some 401%Z) m).
Proof.
  destruct (handleOpenAIError_throws error) as (t & m & H).
  exists (VAppError t m error). split; [exact H|].
  destruct (handleOpenAIError_types error) as (Hkey & _ & _ & Hval).
  rewrite H in Hkey, Hval. cbn [thrownType] in Hkey, Hval.
  split.
  - destruct t; cbn [handleError In].
    + left. destruct Hkey as [Hk _]. destruct (Hk eq_refl) as [um ->].
      cbn in H. injection H as <-. reflexivity.
    + right; right; left; reflexivity.
    + right; right; right; left; reflexivity.
    + congruence.
    + right; left; reflexivity.
    + right; right; right; left; reflexivity.
  - rewrite <- Hkey. destruct t; cbn [isFatalError];
      split; congruence.
Qed.


(** X16. Among the errors [handleOpenAIError] throws, [isFatalError] holds
    exactly for the one made from an API error with status 401. *)
Theorem isFatalError_service (error : JsValue) :
  exists v : JsValue,
    handleOpenAIError error = Throw v
    /\ (isFatalError v = true
        <-> exists m : jsstring, error = VAPIError (Some 401%Z) m).
Proof.
  destruct (handleError_of_service error) as (v & H & _ & Hf).
  now exists v.
Qed.

Section ApplicationFacts.

Variable zodMessage : list ZodIssue -> jsstring.
Variable config : AppConfig.
Variable create : CreateParams -> Completion ChatCompletion.
Variable now : Z.
Variable toLowerCase : jsstring -> jsstring.

Lemma promptForDescription_throws_inv (lines : list jsstring)
      (error : JsValue) :
  promptForDescription zodMessage lines = Throw error ->
  exists (m : jsstring) (d : JsValue),
    error = VAppError VALIDATION_ERROR m d.
Proof.
  unfold promptForDescription. intros H.
  destruct (validateDescription_total zodMessage
              (sanitizeInput (join [10%N] lines))) as [Hr | Ht].
  - rewrite H in Hr. discriminate.
  - apply thrownType_inv in Ht. destruct Ht as (m & d & Ht).
    rewrite H in Ht. injection Ht as ->. now exists m, d.
Qed.

Lemma turn_accepted (lines : list jsstring) (index : Z) (d : jsstring) :
  promptForDescription zodMessage lines = Return d ->
  turn zodMessage config create now lines index
  = paraphrase config create now
      {| description := d; targetLength := promptForTargetLength index |}.
Proof.
  intros H. unfold turn. now rewrite H.
Qed.

(** X17. A description that is rejected costs no request and does not end
    the session: its message is shown and the next turn starts. *)
Theorem runInteractiveCLI_rejected (input : TurnInput)
        (rest : list TurnInput) (error : JsValue) :
  promptForDescription zodMessage (typed_lines input) = Throw error ->
  exists message : jsstring,
    thrownMessage (promptForDescription zodMessage (typed_lines input))
    = Some message
    /\ runInteractiveCLI zodMessage config create now toLowerCase
         (input :: rest)
       = before [DisplayError message] []
           (runInteractiveCLI zodMessage config create now toLowerCase rest).
Proof.
  intros H.
  destruct (promptForDescription_throws_inv _ _ H) as (m & d & ->).
  exists m. split; [now rewrite H|].
  cbn [runInteractiveCLI].
  rewrite (turn_rejected_no_call zodMessage config create now
             (typed_lines input) (selected_index input) _ H).
  reflexivity.
Qed.

Lemma paraphrase_fatal_inv (request : ParaphraseRequest) (error : JsValue) :
  outcome (paraphrase config create now request) = Throw error ->
  isFatalError error = true ->
  exists (m um : jsstring),
    error = VAppError API_KEY_ERROR m (VAPIError (Some 401%Z) um)
    /\ create (createParams config request)
       = Throw (VAPIError (Some 401%Z) um).
Proof.
  intros H Hf.
  destruct error as [| | | | |[] m d]; try discriminate Hf.
  destruct (create (createParams config request)) as [completion|cause] eqn:E.
  - destruct (paraphrase_outcome_answered config create now request
                completion E) as [(text & _ & _ & Hr) | Ht];
      rewrite H in *; discriminate.
  - destruct (paraphrase_outcome_rejected config create now request cause E)
      as [Ht Hd].
    rewrite H in Ht, Hd. cbn in Ht, Hd. injection Hd as ->.
    destruct (handleOpenAIError_types cause) as (Hkey & _).
    symmetry in Ht. apply Hkey in Ht. destruct Ht as [um ->].
    now exists m, um.
Qed.

Lemma runInteractiveCLI_step (input : TurnInput) (rest : list TurnInput) :
  let s := runInteractiveCLI zodMessage config create now toLowerCase
             (input :: rest) in
  let r := runInteractiveCLI zodMessage config create now toLowerCase rest in
  let run := turn zodMessage config create now
                  (typed_lines input) (selected_index input) in
  (exists shown, s = before shown (apiCalls run) r
                 /\ ~ In DisplayGoodbye shown)
  \/ (exists shown, s = {| displayed := shown ++ [DisplayGoodbye];
                           requests := apiCalls run;
                           ending := Finished |}
                    /\ ~ In DisplayGoodbye shown)
  \/ (exists error, s = {| displayed := handleError error;
                           requests := apiCalls run;
                           ending := Aborted error |}
                    /\ outcome run = Throw error
                    /\ isFatalError error = true).
Proof.
  assert (Hh : forall e, ~ In DisplayGoodbye (handleError e)).
  { intros e. destruct e as [| | | | |[] m d]; cbn;
      intros H; repeat (destruct H as [H|H]; [discriminate|]); exact H. }
  cbn zeta. cbn [runInteractiveCLI].
  destruct (outcome (turn zodMessage config create now
                          (typed_lines input) (selected_index input)))
    as [response|error].
  - assert (Hs : ~ In DisplayGoodbye
                   (DisplayResult (original response) (paraphrased response)
                                  (tokensUsed response)
                    :: (if negb (isSignificantlyDifferent toLowerCase
                                   (original response) (paraphrased response))
                        then [DisplayError similarityWarning] else []))).
    { destruct (negb _); cbn;
        intros H; repeat (destruct H as [H|H]; [discriminate|]); exact H. }
    destruct (wants_more input).
    + left. eexists. split; [reflexivity | exact Hs].
    + right; left. eexists. split; [reflexivity | exact Hs].
  - destruct (isFatalError error) eqn:Ef.
    + right; right. exists error. now repeat split.
    + left. eexists. split; [reflexivity | apply Hh].
Qed.

(** X18. The session is only ever broken off by an invalid API key: when the
    loop ends with a rethrown error, that error is the [API_KEY_ERROR] made
    from an API error of status 401 with which the endpoint rejected one of
    the requests sent. *)
Theorem runInteractiveCLI_aborts_on_401 (script : list TurnInput)
        (error : JsValue) :
  ending (runInteractiveCLI zodMessage config create now toLowerCase script)
  = Aborted error ->
  exists (m um : jsstring) (params : CreateParams),
    error = VAppError API_KEY_ERROR m (VAPIError (Some 401%Z) um)
    /\ In params
          (requests (runInteractiveCLI zodMessage config create now
                       toLowerCase script))
    /\ create params = Throw (VAPIError (Some 401%Z) um).
Proof.
  induction script as [|input rest IH]; [discriminate|].
  destruct (runInteractiveCLI_step input rest)
    as [(shown & -> & _) | [(shown & -> & _) | (e & -> & Ho & Hf)]].
  - cbn [ending before requests]. intros H.
    destruct (IH H) as (m & um & params & He & Hin & Hc).
    exists m, um, params. repeat split; try assumption.
    apply in_or_app. now right.
  - discriminate.
  - cbn [ending requests]. intros [= <-].
    unfold turn in *.
    destruct (promptForDescription zodMessage (typed_lines input))
      as [d|ev] eqn:Ep.
    + destruct (paraphrase_fatal_inv _ _ Ho Hf) as (m & um & He & Hc).
      exists m, um,
        (createParams config
           {| description := d;
              targetLength := promptForTargetLength (selected_index input) |}).
      repeat split; [exact He | now left | exact Hc].
    + cbn in Ho. injection Ho as <-.
      destruct (promptForDescription_throws_inv _ _ Ep) as (m & d & ->).
      discriminate Hf.
Qed.

(** X19. Every request the application sends carries a description that
    passed the prompt: between 10 and 5000 code units, no angle bracket, no
    white space at either end; and there is at most one request per turn. *)
Theorem runInteractiveCLI_requests (script : list TurnInput) :
  length (requests (runInteractiveCLI zodMessage config create now
                      toLowerCase script))
  <= length script
  /\ Forall
       (fun params =>
          exists request : ParaphraseRequest,
            params = createParams config request
            /\ MIN_DESCRIPTION_LENGTH <= length (description request)
               <= MAX_DESCRIPTION_LENGTH
            /\ ~ In 60%N (description request)
            /\ ~ In 62%N (description request)
            /\ trim (description request) = description request)
       (requests (runInteractiveCLI zodMessage config create now
                    toLowerCase script)).
Proof.
  induction script as [|input rest [IHlen IHall]];
    [split; [simpl; lia | constructor]|].
  assert (Hrun :
    length (apiCalls (turn zodMessage config create now
                        (typed_lines input) (selected_index input))) <= 1
    /\ Forall
         (fun params =>
            exists request : ParaphraseRequest,
              params = createParams config request
              /\ MIN_DESCRIPTION_LENGTH <= length (description request)
                 <= MAX_DESCRIPTION_LENGTH
              /\ ~ In 60%N (description request)
              /\ ~ In 62%N (description request)
              /\ trim (description request) = description request)
         (apiCalls (turn zodMessage config create now
                      (typed_lines input) (selected_index input)))).
  { unfold turn.
    destruct (promptForDescription zodMessage (typed_lines input))
      as [d|ev] eqn:Ep; cbn [apiCalls paraphrase];
      [|split; [simpl; lia | constructor]].
    split; [simpl; lia|].
    constructor; [|constructor]. eexists. split; [reflexivity|].
    cbn [description].
    destruct (promptForDescription_accepted_inv zodMessage _ _ Ep)
      as (_ & Hlen & H60 & H62 & Hs & He).
    repeat split; try assumption; try lia.
    now apply trim_fixed. }
  destruct Hrun as [Hlen1 Hall1].
  destruct (runInteractiveCLI_step input rest)
    as [(shown & -> & _) | [(shown & -> & _) | (e & -> & _ & _)]];
    cbn [requests before length].
  - split; [rewrite length_app; lia | now apply Forall_app].
  - split; [lia | exact Hall1].
  - split; [lia | exact Hall1].
Qed.

(** X20. The goodbye is shown exactly when the loop is left normally, and
    then once, as the last thing. *)
Theorem runInteractiveCLI_goodbye (script : list TurnInput) :
  (ending (runInteractiveCLI zodMessage config create now toLowerCase script)
   = Finished
   <-> In DisplayGoodbye
          (displayed (runInteractiveCLI zodMessage config create now
                        toLowerCase script)))
  /\ (ending (runInteractiveCLI zodMessage config create now toLowerCase
                script) = Finished ->
      exists shown : list Display,
        displayed (runInteractiveCLI zodMessage config create now
                     toLowerCase script) = shown ++ [DisplayGoodbye]
        /\ ~ In DisplayGoodbye shown).
Proof.
  assert (Hh : forall e, ~ In DisplayGoodbye (handleError e)).
  { intros e. destruct e as [| | | | |[] m d]; cbn;
      intros H; repeat (destruct H as [H|H]; [discriminate|]); exact H. }
  induction script as [|input rest [IHiff IHlast]].
  - split; [split; [discriminate | intros []] | discriminate].
  - destruct (runInteractiveCLI_step input rest)
      as [(shown & -> & Hno) | [(shown & -> & Hno) | (e & -> & _ & _)]];
      cbn [ending displayed before].
    + split.
      * rewrite IHiff. split.
        -- intros H. apply in_or_app. now right.
        -- intros H. apply in_app_or in H. destruct H; [contradiction|easy].
      * intros H. destruct (IHlast H) as (shown' & -> & Hno').
        exists (shown ++ shown'). split; [now rewrite app_assoc|].
        intros Hin. apply in_app_or in Hin. tauto.
    + split.
      * split; [intros _; apply in_or_app; right; now left | reflexivity].
      * intros _. now exists shown.
    + split.
      * split; [discriminate | intros H; now apply Hh in H].
      * discriminate.
Qed.

End ApplicationFacts.

Lemma runInteractiveCLI_rejected_witness :
  exists message : jsstring,
    thrownMessage (promptForDescription Sample.zodMessage
                     (typed_lines Scenario.shortTurn)) = Some message
    /\ runInteractiveCLI Sample.zodMessage Sample.config Sample.rewriteStub 0
         asciiLower [Scenario.shortTurn; Scenario.walletTurn]
       = before [DisplayError message] []
           (runInteractiveCLI Sample.zodMessage Sample.config
              Sample.rewriteStub 0 asciiLower [Scenario.walletTurn]).
Proof.
  eapply (runInteractiveCLI_rejected Sample.zodMessage Sample.config
            Sample.rewriteStub 0 asciiLower Scenario.shortTurn
            [Scenario.walletTurn]).
  vm_compute. reflexivity.
Defined.

Lemma runInteractiveCLI_aborts_on_401_witness :
  exists (m um : jsstring) (params : CreateParams),
    VAppError API_KEY_ERROR
      (lit "Invalid OpenAI API key. Please check your configuration.")
      (VAPIError (Some 401%Z) (lit "Incorrect API key provided"))
    = VAppError API_KEY_ERROR m (VAPIError (Some 401%Z) um)
    /\ In params
          (requests (runInteractiveCLI Sample.zodMessage Sample.config
                       Scenario.badKeyStub 0 asciiLower
                       [Scenario.shortTurn; Scenario.walletTurn]))
    /\ Scenario.badKeyStub params = Throw (VAPIError (Some 401%Z) um).
Proof.
  apply (runInteractiveCLI_aborts_on_401 Sample.zodMessage Sample.config
           Scenario.badKeyStub 0 asciiLower
           [Scenario.shortTurn; Scenario.walletTurn]).
  vm_compute. reflexivity.
Defined.

Lemma runInteractiveCLI_goodbye_witness :
  exists shown : list Display,
    displayed (runInteractiveCLI Sample.zodMessage Sample.config
                 Sample.rewriteStub 0 asciiLower
                 [Scenario.shortTurn; Scenario.walletTurn])
    = shown ++ [DisplayGoodbye]
    /\ ~ In DisplayGoodbye shown.
Proof.
  apply (proj2 (runInteractiveCLI_goodbye Sample.zodMessage Sample.config
                  Sample.rewriteStub 0 asciiLower
                  [Scenario.shortTurn; Scenario.walletTurn])).
  vm_compute. reflexivity.
Defined.

(** ** src/utils/openai-client.ts: the client and its singleton *)

Lemma createOpenAIClient_cases (appConfig : AppConfig) :
  (apiKey (openai appConfig) = []
   /\ createOpenAIClient appConfig
      = Throw (VAppError API_KEY_ERROR
                 (lit "OpenAI API key is not configured. Please set OPENAI_API_KEY environment variable.")
                 VUndefined))
  \/ (apiKey (openai appConfig) <> []
      /\ createOpenAIClient appConfig
         = Return {| options_apiKey := apiKey (openai appConfig);
                     options_timeout := 30000;
                     options_maxRetries := 3 |}).
Proof.
  unfold createOpenAIClient.
  destruct (apiKey (openai appConfig)) as [|c k]; cbn.
  - left. now split.
  - right. split; [discriminate | reflexivity].
Qed.




(** ** The config module *)

Section ConfigFacts.

Variable Num : Type.
Variable Number : jsstring -> Num.

Lemma parseEnum_cases (name : jsstring) (options : list jsstring)
      (d : jsstring) (v : option jsstring) :
  (exists x : jsstring,
      Config.parseEnum name options d v = Config.Parsed x
      /\ ((v = None /\ x = d) \/ (v = Some x /\ In x options)))
  \/ (exists x : jsstring,
        v = Some x /\ ~ In x options
        /\ Config.parseEnum name options d v
           = Config.Rejected
               (Config.mkIssue [name] (Config.expectedOneOf options x))).
Proof.
  unfold Config.parseEnum. destruct v as [x|].
  - destruct (arrayIncludes options x) eqn:E.
    + left. exists x. split; [reflexivity|]. right.
      split; [reflexivity | now apply arrayIncludes_In].
    + right. exists x. split; [reflexivity|]. split; [|reflexivity].
      intros H. apply arrayIncludes_In in H. congruence.
  - left. exists d. split; [reflexivity|]. now left.
Qed.

Lemma parseRequired_cases (name : jsstring) (v : option jsstring) :
  (exists k : jsstring,
      v = Some k /\ k <> [] /\ Config.parseRequired name v = Config.Parsed k)
  \/ (exists text : jsstring,
        (v = None \/ v = Some [])
        /\ Config.parseRequired name v
           = Config.Rejected (Config.mkIssue [name] text)).
Proof.
  destruct v as [[|c k]|]; cbn.
  - right. eexists. split; [now right | reflexivity].
  - left. exists (c :: k). repeat split. discriminate.
  - right. eexists. split; [now left | reflexivity].
Qed.

(** How [parseEnv] ends, by the three keys that can be rejected. *)
Lemma parseEnv_cases (env : Config.ProcessEnv) :
  (exists k e l : jsstring,
      Config.parseRequired (lit "OPENAI_API_KEY") (env (lit "OPENAI_API_KEY"))
      = Config.Parsed k
      /\ Config.parseEnum (lit "NODE_ENV") Config.environments
           (lit "development") (env (lit "NODE_ENV")) = Config.Parsed e
      /\ Config.parseEnum (lit "LOG_LEVEL") Config.logLevels (lit "info")
           (env (lit "LOG_LEVEL")) = Config.Parsed l
      /\ Config.parseEnv Num Number env
         = inl {| Config.OPENAI_API_KEY := k;
                  Config.OPENAI_MODEL :=
                    Config.parseDefault (lit "gpt-5-nano")
                                        (env (lit "OPENAI_MODEL"));
                  Config.MAX_TOKENS :=
                    Number (Config.parseDefault (lit "150")
                                                (env (lit "MAX_TOKENS")));
                  Config.TEMPERATURE :=
                    Number (Config.parseDefault (lit "0.7")
                                                (env (lit "TEMPERATURE")));
                  Config.NODE_ENV := e;
                  Config.LOG_LEVEL := l |})
  \/ (Config.parseEnv Num Number env
      = inr (Config.fieldIssues
               (Config.parseRequired (lit "OPENAI_API_KEY")
                                     (env (lit "OPENAI_API_KEY")))
             ++ Config.fieldIssues
                  (Config.parseEnum (lit "NODE_ENV") Config.environments
                     (lit "development") (env (lit "NODE_ENV")))
             ++ Config.fieldIssues
                  (Config.parseEnum (lit "LOG_LEVEL") Config.logLevels
                     (lit "info") (env (lit "LOG_LEVEL"))))
      /\ (Config.fieldIssues
            (Config.parseRequired (lit "OPENAI_API_KEY")
                                  (env (lit "OPENAI_API_KEY")))
          ++ Config.fieldIssues
               (Config.parseEnum (lit "NODE_ENV") Config.environments
                  (lit "development") (env (lit "NODE_ENV")))
          ++ Config.fieldIssues
               (Config.parseEnum (lit "LOG_LEVEL") Config.logLevels
                  (lit "info") (env (lit "LOG_LEVEL")))) <> nil).
Proof.
  unfold Config.parseEnv.
  destruct (Config.parseRequired (lit "OPENAI_API_KEY")
                                 (env (lit "OPENAI_API_KEY"))) as [k|i1];
    destruct (Config.parseEnum (lit "NODE_ENV") Config.environments
                (lit "development") (env (lit "NODE_ENV"))) as [e|i2];
    destruct (Config.parseEnum (lit "LOG_LEVEL") Config.logLevels
                (lit "info") (env (lit "LOG_LEVEL"))) as [l|i3];
    try (right; split; [reflexivity | discriminate]).
  left. now exists k, e, l.
Qed.

(** X22. [validateEnv] accepts the environment exactly when
    [OPENAI_API_KEY] is bound to a non-empty string and each of [NODE_ENV]
    and [LOG_LEVEL] is either unbound or bound to one of its listed
    values; [OPENAI_MODEL], [MAX_TOKENS] and [TEMPERATURE] are never a reason
    to reject. *)
Theorem validateEnv_accepts_iff (env : Config.ProcessEnv) :
  (exists parsed : Config.Env Num,
      Config.validateEnv Num Number env = Config.Valid parsed)
  <-> ((exists k : jsstring, env (lit "OPENAI_API_KEY") = Some k /\ k <> [])
       /\ (forall v : jsstring,
              env (lit "NODE_ENV") = Some v -> In v Config.environments)
       /\ (forall v : jsstring,
              env (lit "LOG_LEVEL") = Some v -> In v Config.logLevels)).
Proof.
  unfold Config.validateEnv.
  destruct (parseRequired_cases (lit "OPENAI_API_KEY")
              (env (lit "OPENAI_API_KEY")))
    as [(k & Hk & Hne & Pk) | (t1 & Hk & Pk)];
    destruct (parseEnum_cases (lit "NODE_ENV") Config.environments
                (lit "development") (env (lit "NODE_ENV")))
      as [(e & Pe & He) | (e & He & Hnot & Pe)];
    destruct (parseEnum_cases (lit "LOG_LEVEL") Config.logLevels (lit "info")
                (env (lit "LOG_LEVEL")))
      as [(l & Pl & Hl) | (l & Hl & Hnotl & Pl)];
    destruct (parseEnv_cases env)
      as [(k' & e' & l' & Pk' & Pe' & Pl' & ->) | [-> Hnil]];
    try congruence.
  - split; [intros _ | intros _; eauto].
    split; [now exists k|]. split; intros v Hv.
    + destruct He as [[He _] | [He Hin]]; congruence.
    + destruct Hl as [[Hl _] | [Hl Hin]]; congruence.
  - exfalso. apply Hnil. now rewrite Pk, Pe, Pl.
  - split; [intros [p H]; discriminate|].
    intros (_ & _ & H). exfalso. apply Hnotl. now apply H.
  - split; [intros [p H]; discriminate|].
    intros (_ & H & _). exfalso. apply Hnot. now apply H.
  - split; [intros [p H]; discriminate|].
    intros (_ & H & _). exfalso. apply Hnot. now apply H.
  - split; [intros [p H]; discriminate|].
    intros ([k [H Hne]] & _). destruct Hk; congruence.
  - split; [intros [p H]; discriminate|].
    intros ([k [H Hne]] & _). destruct Hk; congruence.
  - split; [intros [p H]; discriminate|].
    intros ([k [H Hne]] & _). destruct Hk; congruence.
  - split; [intros [p H]; discriminate|].
    intros ([k [H Hne]] & _). destruct Hk; congruence.
Qed.

End ConfigFacts.

Section ConfigMore.

Variable Num : Type.
Variable Number : jsstring -> Num.

Lemma validateEnv_valid_inv (env : Config.ProcessEnv)
      (parsed : Config.Env Num) :
  Config.validateEnv Num Number env = Config.Valid parsed ->
  Config.parseRequired (lit "OPENAI_API_KEY") (env (lit "OPENAI_API_KEY"))
  = Config.Parsed (Config.OPENAI_API_KEY parsed)
  /\ Config.parseEnum (lit "NODE_ENV") Config.environments
       (lit "development") (env (lit "NODE_ENV"))
     = Config.Parsed (Config.NODE_ENV parsed)
  /\ Config.parseEnum (lit "LOG_LEVEL") Config.logLevels (lit "info")
       (env (lit "LOG_LEVEL"))
     = Config.Parsed (Config.LOG_LEVEL parsed)
  /\ Config.OPENAI_MODEL parsed
     = Config.parseDefault (lit "gpt-5-nano") (env (lit "OPENAI_MODEL"))
  /\ Config.MAX_TOKENS parsed
     = Number (Config.parseDefault (lit "150") (env (lit "MAX_TOKENS")))
  /\ Config.TEMPERATURE parsed
     = Number (Config.parseDefault (lit "0.7") (env (lit "TEMPERATURE"))).
Proof.
  unfold Config.validateEnv.
  destruct (parseEnv_cases Num Number env)
    as [(k & e & l & Pk & Pe & Pl & ->) | [-> _]]; [|discriminate].
  intros [= <-].
  cbn [Config.OPENAI_API_KEY Config.OPENAI_MODEL Config.MAX_TOKENS
       Config.TEMPERATURE Config.NODE_ENV Config.LOG_LEVEL].
  now rewrite Pk, Pe, Pl.
Qed.

(** X23. An environment that passed [validateEnv] has a non-empty key and
    an environment name and log level from the lists; a configuration that
    takes its key from it can never make [createOpenAIClient] throw. *)
Theorem validateEnv_valid (env : Config.ProcessEnv)
        (parsed : Config.Env Num) :
  Config.validateEnv Num Number env = Config.Valid parsed ->
  env (lit "OPENAI_API_KEY") = Some (Config.OPENAI_API_KEY parsed)
  /\ Config.OPENAI_API_KEY parsed <> []
  /\ In (Config.NODE_ENV parsed) Config.environments
  /\ In (Config.LOG_LEVEL parsed) Config.logLevels
  /\ (forall appConfig : AppConfig,
        apiKey (openai appConfig) = Config.OPENAI_API_KEY parsed ->
        returned (createOpenAIClient appConfig) = true).
Proof.
  intros H. apply validateEnv_valid_inv in H.
  destruct H as (Pk & Pe & Pl & _).
  destruct (parseRequired_cases (lit "OPENAI_API_KEY")
              (env (lit "OPENAI_API_KEY")))
    as [(k & Hk & Hne & Pk') | (t1 & _ & Pk')]; [|congruence].
  assert (k = Config.OPENAI_API_KEY parsed) as <- by congruence.
  destruct (parseEnum_cases (lit "NODE_ENV") Config.environments
              (lit "development") (env (lit "NODE_ENV")))
    as [(e & Pe' & He) | (e & _ & _ & Pe')]; [|congruence].
  assert (e = Config.NODE_ENV parsed) as <- by congruence.
  destruct (parseEnum_cases (lit "LOG_LEVEL") Config.logLevels (lit "info")
              (env (lit "LOG_LEVEL")))
    as [(l & Pl' & Hl) | (l & _ & _ & Pl')]; [|congruence].
  assert (l = Config.LOG_LEVEL parsed) as <- by congruence.
  split; [exact Hk|]. split; [exact Hne|]. split; [|split].
  - destruct He as [[_ ->] | [_ Hin]]; [simpl; tauto | exact Hin].
  - destruct Hl as [[_ ->] | [_ Hin]]; [simpl; tauto | exact Hin].
  - intros appConfig Ha.
    destruct (createOpenAIClient_cases appConfig) as [[Hk' _] | [_ ->]];
      [congruence | reflexivity].
Qed.

(** X24. In an accepted environment every unbound variable has its default
    ([gpt-5-nano], [Number('150')], [Number('0.7')], [development],
    [info]), and a bound [OPENAI_MODEL], [MAX_TOKENS] or [TEMPERATURE] is
    taken as it is: the two numeric variables are converted without any
    check. *)
Theorem validateEnv_defaults (env : Config.ProcessEnv)
        (parsed : Config.Env Num) :
  Config.validateEnv Num Number env = Config.Valid parsed ->
  (env (lit "OPENAI_MODEL") = None ->
   Config.OPENAI_MODEL parsed = lit "gpt-5-nano")
  /\ (env (lit "MAX_TOKENS") = None ->
      Config.MAX_TOKENS parsed = Number (lit "150"))
  /\ (env (lit "TEMPERATURE") = None ->
      Config.TEMPERATURE parsed = Number (lit "0.7"))
  /\ (env (lit "NODE_ENV") = None ->
      Config.NODE_ENV parsed = lit "development")
  /\ (env (lit "LOG_LEVEL") = None ->
      Config.LOG_LEVEL parsed = lit "info")
  /\ (forall v : jsstring,
        env (lit "OPENAI_MODEL") = Some v -> Config.OPENAI_MODEL parsed = v)
  /\ (forall v : jsstring,
        env (lit "MAX_TOKENS") = Some v ->
        Config.MAX_TOKENS parsed = Number v)
  /\ (forall v : jsstring,
        env (lit "TEMPERATURE") = Some v ->
        Config.TEMPERATURE parsed = Number v).
Proof.
  intros H. apply validateEnv_valid_inv in H.
  destruct H as (_ & Pe & Pl & -> & -> & ->).
  unfold Config.parseEnum in Pe, Pl.
  repeat split.
  - now intros ->.
  - now intros ->.
  - now intros ->.
  - intros E. rewrite E in Pe. now injection Pe.
  - intros E. rewrite E in Pl. now injection Pl.
  - now intros v ->.
  - now intros v ->.
  - now intros v ->.
Qed.

Lemma join_cons_prefix (sep p : jsstring) (rest : list jsstring) :
  exists tail : jsstring, join sep (p :: rest) = p ++ tail.
Proof.
  destruct rest as [|q rest].
  - exists []. simpl. now rewrite app_nil_r.
  - now exists (sep ++ join sep (q :: rest)).
Qed.

(** X25. A missing or empty [OPENAI_API_KEY] is reported by [validateEnv]
    as a [VALIDATION_ERROR] (not as an [API_KEY_ERROR]); the key's issue
    comes first, so the message starts with "Environment validation failed:
    OPENAI_API_KEY: ", and at most two more issues follow. *)
Theorem validateEnv_missing_key (env : Config.ProcessEnv) :
  env (lit "OPENAI_API_KEY") = None \/ env (lit "OPENAI_API_KEY") = Some [] ->
  exists (message : jsstring) (issue : Config.Issue)
         (rest : list Config.Issue),
    Config.validateEnv Num Number env
    = Config.Invalid VALIDATION_ERROR message (issue :: rest)
    /\ Config.issue_path issue = [lit "OPENAI_API_KEY"]
    /\ startsWith message
         (lit "Environment validation failed: OPENAI_API_KEY: ") = true
    /\ length rest <= 2.
Proof.
  intros Hk. unfold Config.validateEnv.
  assert (Pk : exists text,
             Config.parseRequired (lit "OPENAI_API_KEY")
                                  (env (lit "OPENAI_API_KEY"))
             = Config.Rejected (Config.mkIssue [lit "OPENAI_API_KEY"] text)).
  { destruct Hk as [-> | ->]; eexists; reflexivity. }
  destruct Pk as [text Pk].
  destruct (parseEnv_cases Num Number env)
    as [(k & e & l & Pk' & _) | [-> _]]; [congruence|].
  rewrite Pk. cbn [Config.fieldIssues app List.map].
  eexists _, _, _. split; [reflexivity|].
  split; [reflexivity|]. split.
  - destruct (join_cons_prefix (lit ", ")
                (Config.renderIssue
                   (Config.mkIssue [lit "OPENAI_API_KEY"] text))
                (List.map Config.renderIssue
                   (Config.fieldIssues
                      (Config.parseEnum (lit "NODE_ENV") Config.environments
                         (lit "development") (env (lit "NODE_ENV")))
                    ++ Config.fieldIssues
                         (Config.parseEnum (lit "LOG_LEVEL") Config.logLevels
                            (lit "info") (env (lit "LOG_LEVEL"))))))
      as [tail ->].
    apply startsWith_spec. exists (text ++ tail).
    unfold Config.renderIssue. cbn [Config.issue_path Config.issue_text join].
    rewrite <- !app_assoc. reflexivity.
  - rewrite length_app.
    destruct (Config.parseEnum (lit "NODE_ENV") _ _ _);
      destruct (Config.parseEnum (lit "LOG_LEVEL") _ _ _); simpl; lia.
Qed.

End ConfigMore.

Lemma validateEnv_valid_witness :
  Scenario.keyOnly (lit "sk-live") (lit "OPENAI_API_KEY")
  = Some (lit "sk-live")
  /\ returned (createOpenAIClient (Scenario.configWithKey (lit "sk-live")))
     = true.
Proof.
  destruct (validateEnv_valid jsstring (fun s => s)
              (Scenario.keyOnly (lit "sk-live"))
              {| Config.OPENAI_API_KEY := lit "sk-live";
                 Config.OPENAI_MODEL := lit "gpt-5-nano";
                 Config.MAX_TOKENS := lit "150";
                 Config.TEMPERATURE := lit "0.7";
                 Config.NODE_ENV := lit "development";
                 Config.LOG_LEVEL := lit "info" |})
    as (Hk & _ & _ & _ & Hc).
  - vm_compute. reflexivity.
  - split; [exact Hk | apply Hc; reflexivity].
Defined.

Lemma validateEnv_defaults_witness :
  Config.OPENAI_MODEL
    {| Config.OPENAI_API_KEY := lit "sk-live";
       Config.OPENAI_MODEL := lit "gpt-5-nano";
       Config.MAX_TOKENS := lit "150";
       Config.TEMPERATURE := lit "0.7";
       Config.NODE_ENV := lit "development";
       Config.LOG_LEVEL := lit "info" |}
  = lit "gpt-5-nano".
Proof.
  apply (proj1 (validateEnv_defaults jsstring (fun s => s)
                  (Scenario.keyOnly (lit "sk-live"))
                  {| Config.OPENAI_API_KEY := lit "sk-live";
                     Config.OPENAI_MODEL := lit "gpt-5-nano";
                     Config.MAX_TOKENS := lit "150";
                     Config.TEMPERATURE := lit "0.7";
                     Config.NODE_ENV := lit "development";
                     Config.LOG_LEVEL := lit "info" |}
                  ltac:(vm_compute; reflexivity))).
  reflexivity.
Defined.

Lemma validateEnv_missing_key_witness :
  exists (message : jsstring) (issue : Config.Issue)
         (rest : list Config.Issue),
    Config.validateEnv jsstring (fun s => s) Scenario.emptyEnv
    = Config.Invalid VALIDATION_ERROR message (issue :: rest)
    /\ Config.issue_path issue = [lit "OPENAI_API_KEY"]
    /\ startsWith message
         (lit "Environment validation failed: OPENAI_API_KEY: ") = true
    /\ length rest <= 2.
Proof.
  apply validateEnv_missing_key. left. reflexivity.
Defined.

(** ** src/services/paraphrase.service.ts: the similarity helper, continued *)

Lemma splitAux_concat (inRun : bool) (cur s : jsstring) :
  (inRun = true -> cur = []) ->
  concat (splitAux inRun cur s)
  = cur ++ filter (fun c => negb (isWhiteSpace c)) s.
Proof.
  revert inRun cur. induction s as [|c s IH]; intros inRun cur Hrun; simpl.
  - reflexivity.
  - destruct (isWhiteSpace c); simpl.
    + destruct inRun; simpl; rewrite IH by reflexivity; [|reflexivity].
      now rewrite Hrun.
    + rewrite IH by discriminate. now rewrite <- app_assoc.
Qed.

Lemma splitAux_pieces (inRun : bool) (cur s : jsstring) :
  (forall c, In c cur -> isWhiteSpace c = false) ->
  Forall (fun w => forall c, In c w -> isWhiteSpace c = false)
         (splitAux inRun cur s).
Proof.
  revert inRun cur. induction s as [|c s IH]; intros inRun cur Hcur; simpl.
  - now constructor.
  - destruct (isWhiteSpace c) eqn:E.
    + destruct inRun.
      * apply IH. intros x [].
      * constructor; [exact Hcur | apply IH; intros x []].
    + apply IH. intros x Hx. apply in_app_or in Hx.
      destruct Hx as [Hx | [<- | []]]; [now apply Hcur | exact E].
Qed.

Lemma splitAux_length (inRun : bool) (cur s : jsstring) :
  length (splitAux inRun cur s) <= S (length s).
Proof.
  revert inRun cur. induction s as [|c s IH]; intros inRun cur; simpl.
  - lia.
  - destruct (isWhiteSpace c); [destruct inRun|]; simpl.
    + specialize (IH true []). lia.
    + specialize (IH true []). lia.
    + specialize (IH false (cur ++ [c])). lia.
Qed.

Section SimilarityMore.

Variable toLowerCase : jsstring -> jsstring.

(** X26. The words the helper compares contain no white space; put
    together they are the lower-cased text without its white space; there
    is at least one word (possibly empty) and at most one more than the
    text has code units. *)
Theorem originalWords_spec (original : jsstring) :
  concat (originalWords toLowerCase original)
  = filter (fun c => negb (isWhiteSpace c)) (toLowerCase original)
  /\ Forall (fun w => forall c, In c w -> isWhiteSpace c = false)
            (originalWords toLowerCase original)
  /\ 1 <= length (originalWords toLowerCase original)
     <= S (length (toLowerCase original)).
Proof.
  unfold originalWords, splitWhiteSpace. split; [|split; [|split]].
  - now apply splitAux_concat.
  - apply splitAux_pieces. intros c [].
  - apply splitAux_nonempty.
  - apply splitAux_length.
Qed.

Lemma isSignificantlyDifferent_counts (o p : jsstring) :
  isSignificantlyDifferent toLowerCase o p = true
  <-> 10 * commonCount toLowerCase o p < 7 * largerCount toLowerCase o p.
Proof.
  unfold isSignificantlyDifferent.
  destruct (eqb (toLowerCase o) (toLowerCase p)) eqn:E.
  - apply eqb_eq in E.
    pose proof (identical_not_below toLowerCase o p E).
    split; [discriminate | tauto].
  - apply similarity_below.
Qed.

Lemma commonCount_le (o p : jsstring) :
  commonCount toLowerCase o p <= length (originalWords toLowerCase o).
Proof.
  unfold commonCount, commonWords.
  induction (originalWords toLowerCase o) as [|w ws IH]; simpl; [lia|].
  destruct (arrayIncludes _ w); simpl; lia.
Qed.

(** X27. A paraphrase that shares no word with the original is always
    significantly different. *)
Theorem isSignificantlyDifferent_disjoint (original paraphrased : jsstring) :
  (forall w : jsstring,
      In w (originalWords toLowerCase original) ->
      ~ In w (paraphrasedWords toLowerCase paraphrased)) ->
  isSignificantlyDifferent toLowerCase original paraphrased = true.
Proof.
  intros H. apply isSignificantlyDifferent_counts.
  assert (Hc : commonCount toLowerCase original paraphrased = 0).
  { unfold commonCount, commonWords.
    induction (originalWords toLowerCase original) as [|w ws IH];
      [reflexivity|].
    cbn [filter].
    destruct (arrayIncludes (paraphrasedWords toLowerCase paraphrased) w)
      eqn:E.
    - apply arrayIncludes_In in E. exfalso. apply (H w); [now left | exact E].
    - apply IH. intros x Hx. apply H. now right. }
  rewrite Hc. pose proof (largerCount_pos toLowerCase original paraphrased).
  lia.
Qed.

(** X28. A paraphrase with more than ten sevenths of the original's number
    of words is always significantly different, whatever the words are. *)
Theorem isSignificantlyDifferent_longer (original paraphrased : jsstring) :
  10 * length (originalWords toLowerCase original)
  < 7 * length (paraphrasedWords toLowerCase paraphrased) ->
  isSignificantlyDifferent toLowerCase original paraphrased = true.
Proof.
  intros H. apply isSignificantlyDifferent_counts.
  pose proof (commonCount_le original paraphrased).
  unfold largerCount. lia.
Qed.

(** X29. A paraphrase that contains every word of the original and has at
    most ten sevenths of its number of words is never significantly
    different; in particular reordering the words is not enough. *)
Theorem isSignificantlyDifferent_same_words (original paraphrased : jsstring) :
  (forall w : jsstring,
      In w (originalWords toLowerCase original) ->
      In w (paraphrasedWords toLowerCase paraphrased)) ->
  7 * length (paraphrasedWords toLowerCase paraphrased)
  <= 10 * length (originalWords toLowerCase original) ->
  isSignificantlyDifferent toLowerCase original paraphrased = false.
Proof.
  intros Hall Hlen.
  destruct (isSignificantlyDifferent toLowerCase original paraphrased) eqn:E;
    [|reflexivity].
  apply isSignificantlyDifferent_counts in E.
  assert (Hc : commonCount toLowerCase original paraphrased
               = length (originalWords toLowerCase original)).
  { unfold commonCount, commonWords. f_equal. apply filter_all.
    intros w Hw. apply arrayIncludes_In. now apply Hall. }
  unfold largerCount in E. lia.
Qed.

End SimilarityMore.

Lemma isSignificantlyDifferent_disjoint_witness :
  isSignificantlyDifferent asciiLower
    (lit "A red large cotton shirt") (lit "Blue denim pants") = true.
Proof.
  apply isSignificantlyDifferent_disjoint.
  intros w Hw Hp. vm_compute in Hw, Hp.
  repeat (destruct Hw as [Hw|Hw];
          [subst w;
           repeat (destruct Hp as [Hp|Hp]; [discriminate Hp|]); exact Hp|]).
  exact Hw.
Defined.

Lemma isSignificantlyDifferent_longer_witness :
  isSignificantlyDifferent asciiLower
    (lit "Oak table") (lit "A table made of solid oak") = true.
Proof.
  apply isSignificantlyDifferent_longer. vm_compute. lia.
Defined.

Lemma isSignificantlyDifferent_same_words_witness :
  isSignificantlyDifferent asciiLower
    (lit "solid oak table") (lit "Table oak SOLID") = false.
Proof.
  apply isSignificantlyDifferent_same_words.
  - intros w Hw. vm_compute in Hw. vm_compute.
    repeat (destruct Hw as [Hw|Hw]; [subst w; tauto|]). destruct Hw.
  - vm_compute. lia.
Defined.
